(** * Dual energy source management: decision engine, relay switching, supervisor

    A shallow embedding of
      - [src/ai_models/energy_optimizer.py]  (class [EnergyOptimizer]),
      - [src/hardware/power_controller.py]   (class [PowerController]),
      - [src/main.py]                        (class [DualEnergySystem]),
    followed by the properties of the design document that concern them.

    Conventions of the embedding.
      - A Python dict is a [gmap]; [d.get(k, v)] is [get d k v].
      - Telemetry values are dynamically typed: a number or a string.  Numbers
        (Python ints and finite floats) are exact rationals [Q]; ordering
        comparisons between a string and a number raise [TypeError].
      - Scores are Python ints ([Z]); the confidence, a Python float, is the
        exact rational quotient.
      - A Python exception is the [Raise] outcome of [result]. *)

From Stdlib Require Import ZArith QArith String Ascii List Lia Lqa.
From stdpp Require Import base option gmap strings list.

Close Scope Q_scope.
Open Scope Z_scope.
Open Scope string_scope.

(** ** Python values, exceptions, comparisons *)

Inductive value : Type :=
  | VNum (q : Q)
  | VStr (s : string).

Inductive exn : Type :=
  | TypeError
  | AttributeError
  | ValueError
  | IndexError
  | KeyError
  | GPIOError.

Inductive result (A : Type) : Type :=
  | Ok (a : A)
  | Raise (e : exn).
Arguments Ok {A} a.
Arguments Raise {A} e.

Definition result_bind {A B : Type} (f : A -> result B) (m : result A) : result B :=
  match m with
  | Ok a => f a
  | Raise e => Raise e
  end.

#[global] Instance result_mret : MRet result := fun A a => Ok a.
#[global] Instance result_mbind : MBind result := fun A B f m => result_bind f m.

(** [d.get(k, v)] *)
Definition get {V : Type} (d : gmap string V) (k : string) (v : V) : V :=
  default v (d !! k).

Definition Qlt_bool (x y : Q) : bool := negb (Qle_bool y x).

(** [v > k], [v >= k], [v < k], [v <= k] for a telemetry value [v] and a number
    [k] (an int literal, a threshold): a string operand raises [TypeError]. *)
Definition py_gt (v : value) (k : Q) : result bool :=
  match v with
  | VNum q => Ok (Qlt_bool k q)
  | VStr _ => Raise TypeError
  end.

Definition py_ge (v : value) (k : Q) : result bool :=
  match v with
  | VNum q => Ok (Qle_bool k q)
  | VStr _ => Raise TypeError
  end.

Definition py_lt (v : value) (k : Q) : result bool :=
  match v with
  | VNum q => Ok (Qlt_bool q k)
  | VStr _ => Raise TypeError
  end.

Definition py_le (v : value) (k : Q) : result bool :=
  match v with
  | VNum q => Ok (Qle_bool q k)
  | VStr _ => Raise TypeError
  end.

(** [a and b] on comparisons: [b] is evaluated only when [a] is true. *)
Definition py_and (a b : result bool) : result bool :=
  c ← a; if c : bool then b else Ok false.

(** [a or b] on comparisons: [b] is evaluated only when [a] is false. *)
Definition py_or (a b : result bool) : result bool :=
  c ← a; if c : bool then Ok true else b.

(** [s * n] for a string [s]: [n] copies of [s]. *)
Fixpoint str_repeat (s : string) (n : nat) : string :=
  match n with
  | O => ""
  | S n' => s ++ str_repeat s n'
  end.

(** [v * 50] *)
Definition py_mul50 (v : value) : value :=
  match v with
  | VNum q => VNum (q * 50)%Q
  | VStr s => VStr (str_repeat s 50)
  end.

(** [str.lower()] on ASCII text. *)
Definition lower_ascii (c : ascii) : ascii :=
  let n := nat_of_ascii c in
  if ((65 <=? n) && (n <=? 90))%nat then ascii_of_nat (n + 32) else c.

Fixpoint lower (s : string) : string :=
  match s with
  | EmptyString => EmptyString
  | String c t => String (lower_ascii c) (lower t)
  end.

(** [needle in hay] for strings. *)
Fixpoint contains (needle hay : string) : bool :=
  String.prefix needle hay ||
  match hay with
  | EmptyString => false
  | String _ t => contains needle t
  end.

(** [v.lower()] : only a string has the method. *)
Definition py_lower (v : value) : result string :=
  match v with
  | VStr s => Ok (lower s)
  | VNum _ => Raise AttributeError
  end.

(** [max(l)] for a list of ints (never called on an empty list here). *)
Definition py_max (l : list Z) : Z :=
  match l with
  | [] => 0
  | x :: t => fold_left Z.max t x
  end.

(** [l.index(x)] : position of the first occurrence, [ValueError] if absent. *)
Fixpoint py_index (x : Z) (l : list Z) : result nat :=
  match l with
  | [] => Raise ValueError
  | y :: t => if (y =? x)%Z then Ok O else n ← py_index x t; Ok (S n)
  end.

(** [sum(max(0, score) for score in scores)] *)
Definition sum_positive (l : list Z) : Z :=
  fold_left Z.add (map (Z.max 0) l) 0.

(** ** energy_optimizer.py : class EnergyOptimizer *)

Module EnergyOptimizer.

(** The threshold tables set in [__init__]. *)
Definition solar_thresholds : gmap string Q :=
  {[ "good_irradiance" := 600%Q; "moderate_irradiance" := 300%Q;
     "min_irradiance" := 100%Q ]}.

Definition thermal_thresholds : gmap string Q :=
  {[ "good_temp" := 25%Q; "excellent_temp" := 30%Q; "min_wind" := 5%Q ]}.

Definition battery_thresholds : gmap string Q :=
  {[ "high_level" := 80%Q; "good_level" := 50%Q; "low_level" := 20%Q;
     "critical_level" := 10%Q ]}.

(** [table[key]] on the constant tables above (every key used is present). *)
Definition threshold (table : gmap string Q) (key : string) : Q :=
  default 0%Q (table !! key).

Record scores : Type := {
  solar_score : Z;
  thermal_score : Z;
  battery_score : Z
}.

(** [if c: t else: e] where evaluating the condition may raise. *)
Definition ite {A : Type} (c : result bool) (t e : result A) : result A :=
  b ← c; if b : bool then t else e.

(** [_standardize_sensor_data] : every default is evaluated eagerly, as the
    argument of [get]. *)
Definition _standardize_sensor_data (sensor_data : gmap string value)
  : gmap string value :=
  {[ "solar_irradiance" :=
       get sensor_data "solar_irradiance"
         (py_mul50 (get sensor_data "solar_voltage" (VNum 0)));
     "temperature" :=
       get sensor_data "temperature"
         (get sensor_data "ambient_temperature" (VNum 20));
     "humidity" := get sensor_data "humidity" (VNum 50);
     "battery_level" :=
       get sensor_data "battery_level"
         (get sensor_data "battery_soc" (VNum 50));
     "power_demand" :=
       get sensor_data "power_demand"
         (get sensor_data "load_demand" (VNum 100));
     "wind_speed" := get sensor_data "wind_speed" (VNum 0);
     "time_of_day" :=
       get sensor_data "time_of_day"
         (get sensor_data "hour_of_day" (VNum 12));
     "weather_condition" := get sensor_data "weather_condition" (VStr "clear");
     "season" := get sensor_data "season" (VStr "summer") ]}.

(** The confidence of a score list (lines 166-169). *)
Definition confidence_of (scores : list Z) : Q :=
  let max_score := py_max scores in
  let total_positive_score := sum_positive scores in
  if (0 <? total_positive_score)%Z
  then (inject_Z max_score / (inject_Z total_positive_score + (1 # 10)))%Q
  else (1 # 2)%Q.

(** [_predict_energy_source] : the three scores are local variables updated in
    place; each rebinding below is one [if]/[elif] statement of the source. *)
Definition _predict_energy_source (sensor_data : gmap string value)
  : result (nat * Q * scores) :=
  (* Extract sensor values *)
  let solar_irradiance := get sensor_data "solar_irradiance" (VNum 0) in
  let temperature := get sensor_data "temperature" (VNum 20) in
  let humidity := get sensor_data "humidity" (VNum 50) in
  let battery_level := get sensor_data "battery_level" (VNum 50) in
  let power_demand := get sensor_data "power_demand" (VNum 100) in
  let wind_speed := get sensor_data "wind_speed" (VNum 0) in
  let time_of_day := get sensor_data "time_of_day" (VNum 12) in
  (* Initialize scores *)
  let solar_score := 0 in
  let thermal_score := 0 in
  let battery_score := 0 in
  (* Solar power scoring *)
  solar_score ←
    ite (py_gt solar_irradiance (threshold solar_thresholds "good_irradiance"))
      (Ok (solar_score + 3))
    (ite (py_gt solar_irradiance (threshold solar_thresholds "moderate_irradiance"))
      (Ok (solar_score + 2))
    (ite (py_gt solar_irradiance (threshold solar_thresholds "min_irradiance"))
      (Ok (solar_score + 1))
      (Ok solar_score)));
  (* Time of day bonus for solar (6 AM to 6 PM) *)
  solar_score ←
    ite (py_and (py_ge time_of_day 6) (py_le time_of_day 18))
      (Ok (solar_score + 1))
      (Ok solar_score);
  (* Thermal power scoring *)
  thermal_score ←
    ite (py_gt temperature (threshold thermal_thresholds "excellent_temp"))
      (Ok (thermal_score + 3))
    (ite (py_gt temperature (threshold thermal_thresholds "good_temp"))
      (Ok (thermal_score + 2))
      (Ok thermal_score));
  (* Wind helps thermal systems *)
  thermal_score ←
    ite (py_gt wind_speed (threshold thermal_thresholds "min_wind"))
      (Ok (thermal_score + 1))
      (Ok thermal_score);
  (* Battery scoring *)
  battery_score ←
    ite (py_gt battery_level (threshold battery_thresholds "high_level"))
      (Ok (battery_score + 2))
    (ite (py_gt battery_level (threshold battery_thresholds "good_level"))
      (Ok (battery_score + 1))
      (Ok battery_score));
  (* Penalty for low battery *)
  battery_score ←
    ite (py_lt battery_level (threshold battery_thresholds "low_level"))
      (Ok (battery_score - 3))
    (ite (py_lt battery_level (threshold battery_thresholds "critical_level"))
      (Ok (battery_score - 5))
      (Ok battery_score));
  (* High demand favors stable sources *)
  '(thermal_score, battery_score) ←
    ite (py_gt power_demand 150)
      (Ok (thermal_score + 1, battery_score + 1))
      (Ok (thermal_score, battery_score));
  (* Night time adjustments *)
  '(solar_score, thermal_score, battery_score) ←
    ite (py_or (py_lt time_of_day 6) (py_gt time_of_day 18))
      (Ok (solar_score - 2, thermal_score + 1, battery_score + 1))
      (Ok (solar_score, thermal_score, battery_score));
  (* Weather adjustments *)
  weather ← py_lower (get sensor_data "weather_condition" (VStr ""));
  let '(solar_score, thermal_score, battery_score) :=
    if contains "cloudy" weather || contains "overcast" weather
    then (solar_score - 1, thermal_score + 1, battery_score)
    else if contains "rain" weather || contains "storm" weather
    then (solar_score - 2, thermal_score, battery_score + 1)
    else if contains "sunny" weather || contains "clear" weather
    then (solar_score + 1, thermal_score, battery_score)
    else (solar_score, thermal_score, battery_score) in
  (* Find the best option *)
  let scores := [solar_score; thermal_score; battery_score] in
  prediction ← py_index (py_max scores) scores;
  (* Calculate confidence *)
  let confidence := confidence_of scores in
  Ok (prediction, confidence,
      {| solar_score := solar_score;
         thermal_score := thermal_score;
         battery_score := battery_score |}).

(** [sources[prediction]] *)
Definition sources : list string := ["solar"; "thermal"; "battery"].

(** [predict_optimal_source] *)
Definition predict_optimal_source (sensor_data : gmap string value)
  : result string :=
  let standardized_data := _standardize_sensor_data sensor_data in
  '(prediction, confidence, scores) ← _predict_energy_source standardized_data;
  match sources !! prediction with
  | Some optimal_source => Ok optimal_source
  | None => Raise IndexError
  end.

(** [sensor_data[key]] : [KeyError] when the key is absent. *)
Definition item (d : gmap string value) (k : string) : result value :=
  match d !! k with
  | Some v => Ok v
  | None => Raise KeyError
  end.

(** [if c: reasons.append(reason)] *)
Definition append_if (c : result bool) (reason : string)
    (reasons : list string) : result (list string) :=
  b ← c; Ok (if b : bool then (reasons ++ [reason])%list else reasons).

(** [_generate_reasoning] ([scores] is not used by the source). *)
Definition _generate_reasoning (sensor_data : gmap string value)
    (prediction : nat) : result (list string) :=
  let reasons := [] in
  reasons ←
    match prediction with
    | 0%nat => (* Solar *)
        reasons ←
          append_if (v ← item sensor_data "solar_irradiance"; py_gt v 600)
            "Excellent solar irradiance detected" reasons;
        reasons ←
          append_if (v ← item sensor_data "time_of_day";
                     py_and (py_ge v 6) (py_le v 18))
            "Daytime hours favor solar energy" reasons;
        append_if (v ← item sensor_data "battery_level"; py_gt v 50)
          "Battery level adequate for solar operation" reasons
    | 1%nat => (* Thermal *)
        reasons ←
          append_if (v ← item sensor_data "temperature"; py_gt v 30)
            "High temperature excellent for thermal energy" reasons;
        reasons ←
          append_if (v ← item sensor_data "wind_speed"; py_gt v 5)
            "Wind conditions support thermal efficiency" reasons;
        append_if (v ← item sensor_data "power_demand"; py_gt v 150)
          "High power demand suits thermal stability" reasons
    | _ => (* Battery *)
        reasons ←
          append_if
            (py_or (v ← item sensor_data "time_of_day"; py_lt v 6)
                   (v ← item sensor_data "time_of_day"; py_gt v 18))
            "Night time favors battery usage" reasons;
        reasons ←
          append_if (v ← item sensor_data "solar_irradiance"; py_lt v 100)
            "Low solar availability requires battery backup" reasons;
        append_if (v ← item sensor_data "battery_level"; py_gt v 80)
          "High battery level available for use" reasons
    end;
  Ok (match reasons with
      | [] => ["Default decision based on current conditions"]
      | _ :: _ => reasons
      end).

(** [_analyze_sensors] *)
Definition _analyze_sensors (sensor_data : gmap string value)
  : result (gmap string string) :=
  let analysis : gmap string string := ∅ in
  (* Solar analysis *)
  irradiance ← item sensor_data "solar_irradiance";
  analysis ←
    ite (py_gt irradiance 600) (Ok (<["solar" := "Excellent"]> analysis))
    (ite (py_gt irradiance 300) (Ok (<["solar" := "Good"]> analysis))
    (ite (py_gt irradiance 100) (Ok (<["solar" := "Fair"]> analysis))
      (Ok (<["solar" := "Poor"]> analysis))));
  (* Thermal analysis *)
  temp ← item sensor_data "temperature";
  analysis ←
    ite (py_gt temp 30) (Ok (<["thermal" := "Excellent"]> analysis))
    (ite (py_gt temp 25) (Ok (<["thermal" := "Good"]> analysis))
      (Ok (<["thermal" := "Fair"]> analysis)));
  (* Battery analysis *)
  battery ← item sensor_data "battery_level";
  ite (py_gt battery 80) (Ok (<["battery" := "Excellent"]> analysis))
  (ite (py_gt battery 50) (Ok (<["battery" := "Good"]> analysis))
  (ite (py_gt battery 20) (Ok (<["battery" := "Fair"]> analysis))
    (Ok (<["battery" := "Critical"]> analysis)))).

(** The dict returned by [explain_decision]. *)
Record explanation : Type := {
  chosen_source : string;
  confidence : Q;
  reasoning : list string;
  explained_scores : scores;
  sensor_analysis : gmap string string
}.

(** [explain_decision] *)
Definition explain_decision (sensor_data : gmap string value)
  : result explanation :=
  let standardized_data := _standardize_sensor_data sensor_data in
  '(prediction, confidence, scores) ← _predict_energy_source standardized_data;
  let sources := ["Solar Power"; "Thermal Energy"; "Battery Power"] in
  chosen_source ←
    match sources !! prediction with
    | Some name => Ok name
    | None => Raise IndexError
    end;
  reasoning ← _generate_reasoning standardized_data prediction;
  sensor_analysis ← _analyze_sensors standardized_data;
  Ok {| chosen_source := chosen_source;
        confidence := confidence;
        reasoning := reasoning;
        explained_scores := scores;
        sensor_analysis := sensor_analysis |}.

End EnergyOptimizer.

(** ** power_controller.py : class PowerController *)

Module PowerController.

Inductive level : Type := DEBUG | INFO | WARNING | ERROR | CRITICAL.

(** What the controller does to the outside: the lines it logs and the
    [GPIO.output] calls that returned. *)
Inductive event : Type :=
  | Log (lvl : level) (msg : string)
  | GPIO_write (pin : Q) (high : bool).

Record t : Type := mk {
  hardware_available : bool;
  gpio_pins : gmap string Q;
  relay_states : gmap string bool;
  journal : list event
}.

Definition log (lvl : level) (msg : string) (self : t) : t :=
  mk (hardware_available self) (gpio_pins self) (relay_states self)
     (journal self ++ [Log lvl msg]).

(** [self.relay_states[source] = state] *)
Definition set_relay (source : string) (state : bool) (self : t) : t :=
  mk (hardware_available self) (gpio_pins self)
     (<[source := state]> (relay_states self)) (journal self).

(** [config.get(key, default)] on the resolved configuration. *)
Definition config_get (config : gmap string Q) (key : string) (dflt : Q) : Q :=
  get config key dflt.

(** [__init__] : [hardware] is [HARDWARE_AVAILABLE and not simulation_mode].
    [init_hardware], which only prepares the pins, is not modelled. *)
Definition init (config : gmap string Q) (hardware : bool) : t :=
  mk hardware
     {[ "solar" := config_get config "gpio.solar_relay" 18%Q;
        "thermal" := config_get config "gpio.thermal_relay" 19%Q;
        "battery" := config_get config "gpio.battery_relay" 20%Q;
        "emergency" := config_get config "gpio.emergency_shutdown" 21%Q ]}
     {[ "solar" := false; "thermal" := false; "battery" := true ]}
     (if hardware then []
      else [Log WARNING "Running in simulation mode - no actual relay control"]).

(** [if x:] for a string. *)
Definition truthy (x : string) : bool :=
  match x with
  | EmptyString => false
  | String _ _ => true
  end.

Section Hardware.

(** [GPIO.output(pin, level)] : returns, or raises. *)
Variable GPIO_output : Q -> bool -> result unit.

(** [if self.hardware_available: GPIO.output(self.gpio_pins[source], level)] *)
Definition gpio_output (source : string) (high : bool) (self : t)
  : result unit * t :=
  if hardware_available self then
    match gpio_pins self !! source with
    | None => (Raise KeyError, self)
    | Some pin =>
        match GPIO_output pin high with
        | Ok _ =>
            (Ok tt, mk (hardware_available self) (gpio_pins self)
                       (relay_states self)
                       (journal self ++ [GPIO_write pin high]))
        | Raise e => (Raise e, self)
        end
    end
  else (Ok tt, self).

Definition invalid_source (source : string) (self : t) : bool :=
  bool_decide (gpio_pins self !! source = None)
  || bool_decide (source = "emergency").

(** [activate_source] *)
Definition activate_source (source : string) (self : t) : bool * t :=
  if invalid_source source self then
    (false, log ERROR ("Invalid energy source: " ++ source) self)
  else
    match gpio_output source true self with
    | (Ok _, self) =>
        let self := set_relay source true self in
        (true, log DEBUG ("Activated " ++ source ++ " relay") self)
    | (Raise _, self) =>
        (false, log ERROR ("Error activating " ++ source) self)
    end.

(** [deactivate_source] *)
Definition deactivate_source (source : string) (self : t) : bool * t :=
  if invalid_source source self then
    (false, log ERROR ("Invalid energy source: " ++ source) self)
  else
    match gpio_output source false self with
    | (Ok _, self) =>
        let self := set_relay source false self in
        (true, log DEBUG ("Deactivated " ++ source ++ " relay") self)
    | (Raise _, self) =>
        (false, log ERROR ("Error deactivating " ++ source) self)
    end.

(** [_perform_switch] : break, delay, make.  Nothing in it can raise, since
    both relay operations catch their own exceptions. *)
Definition _perform_switch (from_source to_source : string) (self : t)
  : result bool * t :=
  (* Step 1: Deactivate current source (break) *)
  let self :=
    if bool_decide (is_Some (relay_states self !! from_source))
    then snd (deactivate_source from_source self)
    else self in
  (* Step 2: Safety delay to prevent arcing *)
  (* Step 3: Activate new source (make) *)
  let '(success, self) := activate_source to_source self in
  (Ok success, self).

(** The [for source in ['solar', 'thermal', 'battery']] loop of
    [emergency_switch]: the first failing GPIO write aborts it. *)
Fixpoint deactivate_all (sources : list string) (self : t) : result unit * t :=
  match sources with
  | [] => (Ok tt, self)
  | source :: rest =>
      match gpio_output source false self with
      | (Ok _, self) => deactivate_all rest (set_relay source false self)
      | (Raise e, self) => (Raise e, self)
      end
  end.

(** [emergency_switch] : the result of [activate_source] is dropped, and the
    [except] clause swallows every exception; the method returns [None] on
    every path. *)
Definition emergency_switch (safe_source : string) (self : t) : result unit * t :=
  let self := log CRITICAL ("EMERGENCY SWITCH to " ++ safe_source) self in
  match deactivate_all ["solar"; "thermal"; "battery"] self with
  | (Ok _, self) =>
      (* Brief safety delay *)
      let self :=
        if truthy safe_source then snd (activate_source safe_source self)
        else self in
      (Ok tt,
       log CRITICAL ("Emergency switch to " ++ safe_source ++ " completed") self)
  | (Raise _, self) =>
      (Ok tt, log CRITICAL "CRITICAL ERROR in emergency switch" self)
  end.

(** [switch_source] *)
Definition switch_source (from_source to_source : string) (self : t) : bool * t :=
  let self :=
    log INFO ("Switching power from " ++ from_source ++ " to " ++ to_source) self in
  let attempt : result bool * t :=
    if bool_decide (from_source = to_source) then
      (Ok true, log DEBUG "Source already active, no switch needed" self)
    else
      match _perform_switch from_source to_source self with
      | (Ok success, self) =>
          if success : bool then
            (Ok true, log INFO ("Successfully switched to " ++ to_source) self)
          else
            (Ok false, log ERROR ("Failed to switch to " ++ to_source) self)
      | (Raise e, self) => (Raise e, self)
      end in
  match attempt with
  | (Ok r, self) => (r, self)
  | (Raise _, self) =>
      let self := log ERROR "Error during power switch" self in
      (* Emergency fallback to battery *)
      let '(_, self) := emergency_switch "battery" self in
      (false, self)
  end.

(** [force_source] *)
Definition force_source (source : string) (self : t) : bool * t :=
  let self := log WARNING ("Forcing activation of " ++ source ++ " source") self in
  let self :=
    fold_left (fun self src => snd (deactivate_source src self))
              ["solar"; "thermal"; "battery"] self in
  let '(success, self) := activate_source source self in
  if success then
    (success, log WARNING ("Forced activation of " ++ source ++ " successful") self)
  else
    let self :=
      log ERROR ("Failed to force " ++ source ++ ", reverting to battery") self in
    (success, snd (activate_source "battery" self)).

(** [active_sources] of [_get_active_source] : the sources whose relay is
    energized. *)
Definition active_sources (self : t) : list string :=
  (map_to_list (filter (fun item => item.2 = true) (relay_states self))).*1.

(** [_get_active_source] : the one energized source, [None] when there is
    none, the word [multiple] (with a warning) when there are several. *)
Definition _get_active_source (self : t) : option string * t :=
  match active_sources self with
  | [source] => (Some source, self)
  | [] => (None, self)
  | _ :: _ :: _ => (Some "multiple", log WARNING "Multiple sources active" self)
  end.

(** [get_relay_states] : a copy of the relay table. *)
Definition get_relay_states (self : t) : gmap string bool := relay_states self.

(** The body of the [for] loop of [test_relays]. *)
Definition test_relay (source : string) (acc : gmap string bool * t)
  : gmap string bool * t :=
  let '(test_results, self) := acc in
  let self := log DEBUG ("Testing " ++ source ++ " relay activation") self in
  let '(activate_success, self) := activate_source source self in
  let self := log DEBUG ("Testing " ++ source ++ " relay deactivation") self in
  let '(deactivate_success, self) := deactivate_source source self in
  (<[source := activate_success && deactivate_success]> test_results, self).

(** [test_relays] *)
Definition test_relays (self : t) : gmap string bool * t :=
  let self := log INFO "Testing all relays" self in
  let '(test_results, self) :=
    fold_left (fun acc source => test_relay source acc)
              ["solar"; "thermal"; "battery"] (∅, self) in
  (* Return to safe state *)
  let self := snd (activate_source "battery" self) in
  (test_results, log INFO "Relay test results" self).

End Hardware.

End PowerController.

(** ** main.py : class DualEnergySystem *)

Module DualEnergySystem.

(** The text of an emergency: [f"Critical low {param}: {value}"] and
    [f"Critical high {param}: {value}"]. *)
Inductive message : Type :=
  | Critical_low (param : string) (v : value)
  | Critical_high (param : string) (v : value).

(** What the supervisor does to its collaborators, in order: the lines it
    logs, the calls it makes on the power controller and on the data logger. *)
Inductive event : Type :=
  | Info_switching (from_source new_source : string)
  | Info_switched (new_source : string)
  | Warning_failed_to_switch (new_source current : string)
  | Warning_safety_check_failed (new_source : string)
  | Critical_EMERGENCY (m : message)
  | Error_in_control_loop (e : exn)
  | Call_switch_source (from_source to_source : string) (success : bool)
  | Call_emergency_switch (safe_source : string)
  | Call_log_system_state (current_source optimal_source : string)
  | Call_log_emergency (m : message).

Record t : Type := mk {
  running : bool;
  current_source : string;
  power_controller : PowerController.t;
  (** number of [sensor_manager.get_all_readings()] calls made so far *)
  sensor_reads : nat;
  journal : list event
}.

(** A method body: it runs on the object, may change it, and returns or
    raises; what it changed before raising stays changed. *)
Definition M (A : Type) : Type := t -> result A * t.

Definition ret {A : Type} (a : A) : M A := fun self => (Ok a, self).

Definition bind {A B : Type} (m : M A) (f : A -> M B) : M B :=
  fun self =>
    match m self with
    | (Ok a, self) => f a self
    | (Raise e, self) => (Raise e, self)
    end.

Definition lift {A : Type} (r : result A) : M A := fun self => (r, self).

Definition emit (e : event) : M unit :=
  fun self =>
    (Ok tt, mk (running self) (current_source self) (power_controller self)
               (sensor_reads self) (journal self ++ [e])).

Definition set_current_source (source : string) : M unit :=
  fun self =>
    (Ok tt, mk (running self) source (power_controller self)
               (sensor_reads self) (journal self)).

Definition get_current_source : M string :=
  fun self => (Ok (current_source self), self).

(** [try: body except Exception as e: handler(e)] *)
Definition try_except {A : Type} (body : M A) (handler : exn -> M A) : M A :=
  fun self =>
    match body self with
    | (Ok a, self) => (Ok a, self)
    | (Raise e, self) => handler e self
    end.

#[global] Instance M_mret : MRet M := fun A a => ret a.
#[global] Instance M_mbind : MBind M := fun A B f m => bind m f.

Section Supervisor.

(** The resolved configuration ([self.config]). *)
Variable config : gmap string Q.
(** [GPIO.output] of the relay hardware. *)
Variable GPIO_output : Q -> bool -> result unit.
(** The sensor manager: [readings n] is what the [n]-th call of
    [get_all_readings()] returns (the monitoring thread may have replaced the
    latest reading between two calls). *)
Variable readings : nat -> gmap string value.

Definition config_get (key : string) (dflt : Q) : Q := get config key dflt.

(** [__init__] *)
Definition init (hardware : bool) : t :=
  mk false "battery" (PowerController.init config hardware) 0 [].

(** [self.sensor_manager.get_all_readings()] *)
Definition get_all_readings : M (gmap string value) :=
  fun self =>
    (Ok (readings (sensor_reads self)),
     mk (running self) (current_source self) (power_controller self)
        (S (sensor_reads self)) (journal self)).

(** [self.power_controller.switch_source(from, to)] *)
Definition call_switch_source (from_source to_source : string) : M bool :=
  fun self =>
    let '(success, pc) :=
      PowerController.switch_source GPIO_output from_source to_source
        (power_controller self) in
    (Ok success,
     mk (running self) (current_source self) pc (sensor_reads self)
        (journal self ++ [Call_switch_source from_source to_source success])).

(** [self.power_controller.emergency_switch(safe_source)] *)
Definition call_emergency_switch (safe_source : string) : M unit :=
  fun self =>
    let '(r, pc) :=
      PowerController.emergency_switch GPIO_output safe_source
        (power_controller self) in
    (r,
     mk (running self) (current_source self) pc (sensor_reads self)
        (journal self ++ [Call_emergency_switch safe_source])).

(** [check_solar_safety] *)
Definition check_solar_safety (sensor_data : gmap string value) : result bool :=
  let solar_voltage := get sensor_data "solar_voltage" (VNum 0) in
  let solar_current := get sensor_data "solar_current" (VNum 0) in
  let min_voltage := config_get "solar_min_voltage" 12%Q in
  let min_current := config_get "solar_min_current" (1 # 2)%Q in
  py_and (py_ge solar_voltage min_voltage) (py_ge solar_current min_current).

(** [check_thermal_safety] *)
Definition check_thermal_safety (sensor_data : gmap string value) : result bool :=
  let thermal_voltage := get sensor_data "thermal_voltage" (VNum 0) in
  let thermal_temp := get sensor_data "thermal_temperature" (VNum 0) in
  let min_voltage := config_get "thermal_min_voltage" 5%Q in
  let max_temp := config_get "thermal_max_temperature" 85%Q in
  let min_temp := config_get "thermal_min_temperature" 40%Q in
  py_and (py_ge thermal_voltage min_voltage)
         (py_and (py_ge thermal_temp min_temp) (py_le thermal_temp max_temp)).

(** [check_battery_safety] *)
Definition check_battery_safety (sensor_data : gmap string value) : result bool :=
  let battery_voltage := get sensor_data "battery_voltage" (VNum 0) in
  let battery_temp := get sensor_data "battery_temperature" (VNum 0) in
  let min_voltage := config_get "battery_min_voltage" (21 # 2)%Q in
  let max_temp := config_get "battery_max_temperature" 45%Q in
  py_and (py_ge battery_voltage min_voltage) (py_le battery_temp max_temp).

(** [is_safe_to_switch] : a dict of checks, with a constant-false default. *)
Definition is_safe_to_switch (new_source : string)
    (sensor_data : gmap string value) : result bool :=
  let safety_checks : gmap string (gmap string value -> result bool) :=
    {[ "solar" := check_solar_safety;
       "thermal" := check_thermal_safety;
       "battery" := check_battery_safety ]} in
  get safety_checks new_source (fun x => Ok false) sensor_data.

(** [switch_energy_source] *)
Definition switch_energy_source (new_source : string)
    (sensor_data : gmap string value) : M unit :=
  current ← get_current_source;
  emit (Info_switching current new_source);;
  (* Safety checks before switching *)
  safe ← lift (is_safe_to_switch new_source sensor_data);
  if safe : bool then
    success ← call_switch_source current new_source;
    if success : bool then
      set_current_source new_source;;
      emit (Info_switched new_source)
    else
      emit (Warning_failed_to_switch new_source current)
  else
    emit (Warning_safety_check_failed new_source).

(** [find_safest_source] : priority order battery > solar > thermal. *)
Definition find_safest_source : M (option string) :=
  sensor_data ← get_all_readings;
  battery ← lift (check_battery_safety sensor_data);
  if battery : bool then ret (Some "battery")
  else
    solar ← lift (check_solar_safety sensor_data);
    if solar : bool then ret (Some "solar")
    else
      thermal ← lift (check_thermal_safety sensor_data);
      if thermal : bool then ret (Some "thermal")
      else ret None.

(** [handle_emergency] *)
Definition handle_emergency (m : message) : M unit :=
  emit (Critical_EMERGENCY m);;
  (* Switch to safest available source (usually battery) *)
  safe_source ← find_safest_source;
  current ← get_current_source;
  match safe_source with
  | Some safe_source =>
      if PowerController.truthy safe_source
         && negb (bool_decide (safe_source = current))
      then
        call_emergency_switch safe_source;;
        set_current_source safe_source
      else ret tt
  | None => ret tt
  end;;
  (* Log emergency *)
  emit (Call_log_emergency m).

(** The [emergency_conditions] list of [check_system_health]. *)
Definition emergency_conditions : list (string * string * Q) :=
  [ ("battery_voltage", "low", config_get "battery_critical_voltage" 10%Q);
    ("battery_temperature", "high", config_get "battery_critical_temp" 50%Q);
    ("thermal_temperature", "high", config_get "thermal_critical_temp" 90%Q) ].

(** The body of the [for] loop of [check_system_health]. *)
Definition check_condition (sensor_data : gmap string value)
    (entry : string * string * Q) : M unit :=
  let '(param, condition, threshold) := entry in
  let v := get sensor_data param (VNum 0) in
  low ← lift (py_and (Ok (bool_decide (condition = "low"))) (py_le v threshold));
  if low : bool then handle_emergency (Critical_low param v)
  else
    high ← lift (py_and (Ok (bool_decide (condition = "high")))
                         (py_ge v threshold));
    if high : bool then handle_emergency (Critical_high param v)
    else ret tt.

Fixpoint for_each {A : Type} (body : A -> M unit) (l : list A) : M unit :=
  match l with
  | [] => ret tt
  | x :: rest => body x;; for_each body rest
  end.

(** [check_system_health] *)
Definition check_system_health (sensor_data : gmap string value) : M unit :=
  for_each (check_condition sensor_data) emergency_conditions.

(** Lines 97-116 of [control_loop]: sense, decide, switch if needed, log. *)
Definition decide_and_switch : M (gmap string value) :=
  (* Get current sensor readings *)
  sensor_data ← get_all_readings;
  (* Use AI model to determine optimal energy source *)
  optimal_source ← lift (EnergyOptimizer.predict_optimal_source sensor_data);
  (* Switch energy source if needed *)
  current ← get_current_source;
  (if negb (bool_decide (optimal_source = current))
   then switch_energy_source optimal_source sensor_data
   else ret tt);;
  (* Log data *)
  current ← get_current_source;
  emit (Call_log_system_state current optimal_source);;
  (* Update AI model with recent performance data: a debug line only *)
  ret sensor_data.

(** One iteration of the [while self.running] loop of [control_loop]: the
    [try] body and its [except Exception] clause. *)
Definition control_loop_iteration : M unit :=
  try_except
    (sensor_data ← decide_and_switch;
     (* Monitor system health *)
     check_system_health sensor_data)
    (fun e => emit (Error_in_control_loop e)).

(** [control_loop], cut after [cycles] iterations. *)
Fixpoint control_loop (cycles : nat) : M unit :=
  match cycles with
  | O => ret tt
  | S cycles =>
      fun self =>
        if running self then (control_loop_iteration;; control_loop cycles) self
        else (Ok tt, self)
  end.

(** [get_health_status] : the three checks are evaluated first, all of
    them. *)
Definition get_health_status (sensor_data : gmap string value)
  : result string :=
  solar ← check_solar_safety sensor_data;
  thermal ← check_thermal_safety sensor_data;
  battery ← check_battery_safety sensor_data;
  let health_checks := [solar; thermal; battery] in
  if forallb id health_checks then Ok "excellent"
  else if existsb id health_checks then Ok "good"
  else Ok "critical".

(** [get_system_status], without its timestamp. *)
Definition get_system_status : M (string * gmap string value * string) :=
  sensor_data ← get_all_readings;
  health ← lift (get_health_status sensor_data);
  current ← get_current_source;
  ret (current, sensor_data, health).



End Supervisor.

End DualEnergySystem.

(** ** config_loader.py : class ConfigLoader *)

Module ConfigLoader.

(** A loaded YAML document: a scalar, a list, or a dict in insertion
    order. *)
#[warnings="-register-all"] Inductive yaml : Type :=
  | YNone
  | YBool (b : bool)
  | YNum (q : Q)
  | YStr (s : string)
  | YList (elements : list yaml)
  | YDict (items : list (string * yaml)).

(** [k in d] and [d[k]] on a dict. *)
Fixpoint lookup_item (k : string) (items : list (string * yaml))
  : option yaml :=
  match items with
  | [] => None
  | (k', v) :: rest => if String.eqb k k' then Some v else lookup_item k rest
  end.

(** [d[k] = v] : the entry is replaced in place, or added at the end. *)
Fixpoint store_item (k : string) (v : yaml) (items : list (string * yaml))
  : list (string * yaml) :=
  match items with
  | [] => [(k, v)]
  | (k', v') :: rest =>
      if String.eqb k k' then (k, v) :: rest
      else (k', v') :: store_item k v rest
  end.

(** [key.split('.')] : never empty; an empty segment stands between two
    dots, before a leading and after a trailing one. *)
Fixpoint split_dot (key : string) : list string :=
  match key with
  | EmptyString => [EmptyString]
  | String c rest =>
      if Ascii.eqb c "."%char then EmptyString :: split_dot rest
      else
        match split_dot rest with
        | segment :: segments => String c segment :: segments
        | [] => [String c EmptyString]
        end
  end.

(** The [for k in keys] loop of [get]. *)
Fixpoint get_path (keys : list string) (value : yaml) (default : yaml)
  : yaml :=
  match keys with
  | [] => value
  | k :: keys =>
      match value with
      | YDict items =>
          match lookup_item k items with
          | Some child => get_path keys child default
          | None => default
          end
      | _ => default
      end
  end.

(** [get] *)
Definition get (config : yaml) (key : string) (default : yaml) : yaml :=
  get_path (split_dot key) config default.

(** The loop of [set] over [keys[:-1]] and the final assignment to
    [keys[-1]].  On a value that is not a dict the membership test, the
    indexing or the assignment with a string key raises [TypeError]; that can
    only happen along entries that already exist, before any dict has been
    added, so the configuration is unchanged when [set] raises. *)
Fixpoint set_path (keys : list string) (v : yaml) (config : yaml)
  : result yaml :=
  match keys with
  | [] => Raise IndexError
  | [k] =>
      match config with
      | YDict items => Ok (YDict (store_item k v items))
      | _ => Raise TypeError
      end
  | k :: keys =>
      match config with
      | YDict items =>
          let child :=
            match lookup_item k items with
            | Some child => child
            | None => YDict []
            end in
          child ← set_path keys v child;
          Ok (YDict (store_item k child items))
      | _ => Raise TypeError
      end
  end.

(** [set] : the new configuration, or the exception. *)
Definition set (config : yaml) (key : string) (v : yaml) : result yaml :=
  set_path (split_dot key) v config.

(** [get_default_config] *)
Definition get_default_config : yaml :=
  YDict
    [ ("control_loop_interval", YNum 5%Q);
      ("sensor_read_interval", YNum 1%Q);
      ("simulation_mode", YBool true);
      ("safety",
       YDict
         [ ("solar", YDict [("min_voltage", YNum 12%Q);
                            ("min_current", YNum (1 # 2)%Q)]);
           ("thermal", YDict [("min_voltage", YNum 5%Q);
                              ("min_temperature", YNum 40%Q)]);
           ("battery", YDict [("min_voltage", YNum (21 # 2)%Q);
                              ("critical_voltage", YNum (19 # 2)%Q)]) ]);
      ("gpio",
       YDict [ ("solar_relay", YNum 18%Q); ("thermal_relay", YNum 19%Q);
               ("battery_relay", YNum 20%Q);
               ("emergency_shutdown", YNum 21%Q) ]);
      ("web", YDict [ ("host", YStr "0.0.0.0"); ("port", YNum 5000%Q);
                      ("debug", YBool false) ]) ].

End ConfigLoader.

(** ** sensor_manager.py : class SensorManager *)

Module SensorManager.

(** [max(a, b)] and [min(a, b)] : the first argument wins a tie. *)
Definition py_max2 (a b : Q) : Q := if Qlt_bool a b then b else a.
Definition py_min2 (a b : Q) : Q := if Qlt_bool b a then b else a.

(** [_calculate_battery_soc] *)
Definition _calculate_battery_soc (voltage : Q) : Q :=
  let min_voltage := (21 # 2)%Q in
  let max_voltage := (27 # 2)%Q in
  let soc :=
    ((voltage - min_voltage) / (max_voltage - min_voltage) * 100)%Q in
  py_max2 0 (py_min2 100 soc).

End SensorManager.

(** * Vocabulary of the properties *)

Open Scope list_scope.

(** ** Typed view of a telemetry mapping

    [_predict_energy_source] compares each of six values with a number on
    every path and calls [lower()] on the weather, so it returns exactly on
    the mappings whose six values are numbers and whose weather is a string.
    On those it computes [rule_scores], the same statements without the
    dynamic checks. *)

Record readings : Type := {
  solar_irradiance : Q;
  temperature : Q;
  battery_level : Q;
  power_demand : Q;
  wind_speed : Q;
  time_of_day : Q;
  weather : string
}.

Definition typed (sensor_data : gmap string value) : option readings :=
  match get sensor_data "solar_irradiance" (VNum 0),
        get sensor_data "temperature" (VNum 20),
        get sensor_data "battery_level" (VNum 50),
        get sensor_data "power_demand" (VNum 100),
        get sensor_data "wind_speed" (VNum 0),
        get sensor_data "time_of_day" (VNum 12),
        get sensor_data "weather_condition" (VStr "") with
  | VNum i, VNum t, VNum b, VNum p, VNum w, VNum h, VStr s =>
      Some {| solar_irradiance := i; temperature := t; battery_level := b;
              power_demand := p; wind_speed := w; time_of_day := h;
              weather := lower s |}
  | _, _, _, _, _, _, _ => None
  end.

Definition daytime (h : Q) : bool := Qle_bool 6 h && Qle_bool h 18.
Definition night (h : Q) : bool := Qlt_bool h 6 || Qlt_bool 18 h.
Definition cloudy (w : string) : bool :=
  contains "cloudy" w || contains "overcast" w.
Definition rainy (w : string) : bool :=
  contains "rain" w || contains "storm" w.
Definition sunny (w : string) : bool :=
  contains "sunny" w || contains "clear" w.

Definition rule_scores (r : readings) : Z * Z * Z :=
  let solar_score := 0 in
  let thermal_score := 0 in
  let battery_score := 0 in
  let solar_score :=
    if Qlt_bool 600 (solar_irradiance r) then solar_score + 3
    else if Qlt_bool 300 (solar_irradiance r) then solar_score + 2
    else if Qlt_bool 100 (solar_irradiance r) then solar_score + 1
    else solar_score in
  let solar_score :=
    if daytime (time_of_day r) then solar_score + 1 else solar_score in
  let thermal_score :=
    if Qlt_bool 30 (temperature r) then thermal_score + 3
    else if Qlt_bool 25 (temperature r) then thermal_score + 2
    else thermal_score in
  let thermal_score :=
    if Qlt_bool 5 (wind_speed r) then thermal_score + 1 else thermal_score in
  let battery_score :=
    if Qlt_bool 80 (battery_level r) then battery_score + 2
    else if Qlt_bool 50 (battery_level r) then battery_score + 1
    else battery_score in
  let battery_score :=
    if Qlt_bool (battery_level r) 20 then battery_score - 3
    else if Qlt_bool (battery_level r) 10 then battery_score - 5
    else battery_score in
  let '(thermal_score, battery_score) :=
    if Qlt_bool 150 (power_demand r)
    then (thermal_score + 1, battery_score + 1)
    else (thermal_score, battery_score) in
  let '(solar_score, thermal_score, battery_score) :=
    if night (time_of_day r)
    then (solar_score - 2, thermal_score + 1, battery_score + 1)
    else (solar_score, thermal_score, battery_score) in
  if cloudy (weather r)
  then (solar_score - 1, thermal_score + 1, battery_score)
  else if rainy (weather r)
  then (solar_score - 2, thermal_score, battery_score + 1)
  else if sunny (weather r)
  then (solar_score + 1, thermal_score, battery_score)
  else (solar_score, thermal_score, battery_score).

(** First index of the maximum of three scores. *)
Definition argmax3 (a b c : Z) : nat :=
  if (a =? Z.max (Z.max a b) c)%Z then 0%nat
  else if (b =? Z.max (Z.max a b) c)%Z then 1%nat
  else 2%nat.

Definition decision_of (r : readings) : nat * Q * EnergyOptimizer.scores :=
  let '(a, b, c) := rule_scores r in
  (argmax3 a b c, EnergyOptimizer.confidence_of [a; b; c],
   {| EnergyOptimizer.solar_score := a;
      EnergyOptimizer.thermal_score := b;
      EnergyOptimizer.battery_score := c |}).

(** The contributions to the solar score of the statements other than the
    irradiance ladder: daytime bonus, night penalty, weather adjustment. *)
Definition solar_other (r : readings) : Z :=
  (if daytime (time_of_day r) then 1 else 0)
  + (if night (time_of_day r) then -2 else 0)
  + (if cloudy (weather r) then -1
     else if rainy (weather r) then -2
     else if sunny (weather r) then 1 else 0).

(** The contributions to the battery score of the statements other than the
    two on the battery level: high demand, night, rain. *)
Definition battery_other (r : readings) : Z :=
  (if Qlt_bool 150 (power_demand r) then 1 else 0)
  + (if night (time_of_day r) then 1 else 0)
  + (if cloudy (weather r) then 0 else if rainy (weather r) then 1 else 0).

(** The design document's reading: below the critical level both penalties
    are included, above the good irradiance all three bonuses are. *)
Definition cumulative_tiers : Prop :=
  forall (sd : gmap string value) (r : readings) p c s,
    typed sd = Some r ->
    EnergyOptimizer._predict_energy_source sd = Ok (p, c, s) ->
    ((battery_level r < 10)%Q ->
     EnergyOptimizer.battery_score s = (-3) + (-5) + battery_other r) /\
    ((600 < solar_irradiance r)%Q ->
     EnergyOptimizer.solar_score s = 3 + 2 + 1 + solar_other r).

(** A telemetry mapping given by its items. *)
Definition tele (l : list (string * value)) : gmap string value :=
  list_to_map l.

(** Battery at 5 percent under a bright noon sun. *)
Definition drained_at_noon : gmap string value :=
  tele [("solar_irradiance", VNum 900%Q); ("temperature", VNum 20%Q);
        ("battery_level", VNum 5%Q); ("power_demand", VNum 100%Q);
        ("wind_speed", VNum 0%Q); ("time_of_day", VNum 12%Q);
        ("weather_condition", VStr "clear")].

Definition drained_at_noon_readings : readings :=
  {| solar_irradiance := 900; temperature := 20; battery_level := 5;
     power_demand := 100; wind_speed := 0; time_of_day := 12;
     weather := "clear" |}.

(** [GPIO.output] that always returns. *)
Definition GPIO_sound (pin : Q) (high : bool) : result unit := Ok tt.

(** [GPIO.output] that raises when the battery relay (pin 20) is driven high. *)
Definition GPIO_battery_relay_stuck (pin : Q) (high : bool) : result unit :=
  if high && Qeq_bool pin 20 then Raise GPIOError else Ok tt.



(** A rainy noon with the battery at 15 percent: no score is positive. *)
Definition rainy_noon : gmap string value :=
  tele [("solar_irradiance", VNum 0%Q); ("temperature", VNum 20%Q);
        ("battery_level", VNum 15%Q); ("power_demand", VNum 100%Q);
        ("wind_speed", VNum 0%Q); ("time_of_day", VNum 12%Q);
        ("weather_condition", VStr "Rain")].

Definition rainy_noon_readings : readings :=
  {| solar_irradiance := 0; temperature := 20; battery_level := 15;
     power_demand := 100; wind_speed := 0; time_of_day := 12;
     weather := "rain" |}.

(** A cloudy noon on which the three scores are all 1. *)
Definition cloudy_noon : gmap string value :=
  tele [("solar_irradiance", VNum 150%Q); ("temperature", VNum 20%Q);
        ("battery_level", VNum 60%Q); ("power_demand", VNum 100%Q);
        ("wind_speed", VNum 0%Q); ("time_of_day", VNum 12%Q);
        ("weather_condition", VStr "cloudy")].

Definition cloudy_noon_readings : readings :=
  {| solar_irradiance := 150; temperature := 20; battery_level := 60;
     power_demand := 100; wind_speed := 0; time_of_day := 12;
     weather := "cloudy" |}.

(** A bright noon with the battery at 15 percent. *)
Definition low_battery_noon : gmap string value :=
  tele [("solar_irradiance", VNum 900%Q); ("temperature", VNum 20%Q);
        ("battery_level", VNum 15%Q); ("power_demand", VNum 100%Q);
        ("wind_speed", VNum 0%Q); ("time_of_day", VNum 12%Q);
        ("weather_condition", VStr "clear")].

Definition low_battery_noon_readings : readings :=
  {| solar_irradiance := 900; temperature := 20; battery_level := 15;
     power_demand := 100; wind_speed := 0; time_of_day := 12;
     weather := "clear" |}.

(** Sound readings of the three sources. *)
Definition all_sound : gmap string value :=
  tele [("solar_voltage", VNum 14%Q); ("solar_current", VNum 2%Q);
        ("thermal_voltage", VNum 6%Q); ("thermal_temperature", VNum 60%Q);
        ("battery_voltage", VNum 12%Q); ("battery_temperature", VNum 25%Q)].

(** The state after one more sensor read and the events [new]. *)
Definition after (self : DualEnergySystem.t) (reads : nat)
    (new : list DualEnergySystem.event) : DualEnergySystem.t :=
  DualEnergySystem.mk
    (DualEnergySystem.running self)
    (DualEnergySystem.current_source self)
    (DualEnergySystem.power_controller self)
    (reads + DualEnergySystem.sensor_reads self)
    (DualEnergySystem.journal self ++ new).

(** A method only ever adds to the journal. *)
Definition appends {A : Type} (body : DualEnergySystem.M A) : Prop :=
  forall self, exists new : list DualEnergySystem.event,
    DualEnergySystem.journal (body self).2 = DualEnergySystem.journal self ++ new.

Section SupervisorVocabulary.

Variable config : gmap string Q.

(** [find_safest_source] as a function of the reading it obtains. *)
Definition safest (sd : gmap string value) : result (option string) :=
  battery ← DualEnergySystem.check_battery_safety config sd;
  if battery : bool then Ok (Some "battery")
  else
    solar ← DualEnergySystem.check_solar_safety config sd;
    if solar : bool then Ok (Some "solar")
    else
      thermal ← DualEnergySystem.check_thermal_safety config sd;
      if thermal : bool then Ok (Some "thermal") else Ok None.



End SupervisorVocabulary.

(** The contribution of each threshold ladder of the scoring. *)
Definition irradiance_points (r : readings) : Z :=
  if Qlt_bool 600 (solar_irradiance r) then 3
  else if Qlt_bool 300 (solar_irradiance r) then 2
  else if Qlt_bool 100 (solar_irradiance r) then 1 else 0.

Definition temperature_points (r : readings) : Z :=
  if Qlt_bool 30 (temperature r) then 3
  else if Qlt_bool 25 (temperature r) then 2 else 0.

Definition level_points (r : readings) : Z :=
  (if Qlt_bool 80 (battery_level r) then 2
   else if Qlt_bool 50 (battery_level r) then 1 else 0)
  + (if Qlt_bool (battery_level r) 20 then -3
     else if Qlt_bool (battery_level r) 10 then -5 else 0).

(** The contributions to the thermal score of the statements other than the
    temperature ladder: wind, high demand, night, cloudy weather. *)
Definition thermal_other (r : readings) : Z :=
  (if Qlt_bool 5 (wind_speed r) then 1 else 0)
  + (if Qlt_bool 150 (power_demand r) then 1 else 0)
  + (if night (time_of_day r) then 1 else 0)
  + (if cloudy (weather r) then 1 else 0).

(** The label [_analyze_sensors] gives to a ladder that scored [points]. *)
Definition ladder_label (points : Z) : string :=
  if (points =? 3)%Z then "Excellent"
  else if (points =? 2)%Z then "Good"
  else if (points =? 1)%Z then "Fair"
  else "Poor".

(** The name [explain_decision] displays for a source. *)
Definition display_name (source : string) : string :=
  if String.eqb source "solar" then "Solar Power"
  else if String.eqb source "thermal" then "Thermal Energy"
  else "Battery Power".

(** One of the three relay-driven sources. *)
Definition known_source (source : string) : Prop :=
  source = "solar" \/ source = "thermal" \/ source = "battery".

(** The tables of a controller as [__init__] lays them out: four pins, three
    relays. *)
Definition wired (pc : PowerController.t) : Prop :=
  dom (PowerController.gpio_pins pc)
  = {[ "solar"; "thermal"; "battery"; "emergency" ]} /\
  dom (PowerController.relay_states pc) = {[ "solar"; "thermal"; "battery" ]}.

(** The relay table in which [source] alone is energized. *)
Definition only (source : string) : gmap string bool :=
  {[ "solar" := bool_decide (source = "solar");
     "thermal" := bool_decide (source = "thermal");
     "battery" := bool_decide (source = "battery") ]}.

(** The relay table in which nothing is energized. *)
Definition all_off : gmap string bool :=
  {[ "solar" := false; "thermal" := false; "battery" := false ]}.

(** The controller keeps its wiring from [pc] to [pc']. *)
Definition stays_wired (pc pc' : PowerController.t) : Prop :=
  wired pc' /\
  PowerController.hardware_available pc' = PowerController.hardware_available pc /\
  PowerController.gpio_pins pc' = PowerController.gpio_pins pc.


(** A cycle leaves the run flag alone and never rewinds the sensor clock. *)
Definition keeps_running (self self' : DualEnergySystem.t) : Prop :=
  DualEnergySystem.running self' = DualEnergySystem.running self /\
  (DualEnergySystem.sensor_reads self <= DualEnergySystem.sensor_reads self')%nat.

(** * Properties *)

Section ResultLemmas.

Context {A B : Type}.

Lemma bind_Ok (x : A) (f : A -> result B) : (Ok x ≫= f) = f x.
Proof. reflexivity. Qed.

Lemma bind_Ok_inv (m : result A) (f : A -> result B) (r : B) :
  (m ≫= f) = Ok r -> exists a, m = Ok a /\ f a = Ok r.
Proof. destruct m as [a|e]; [eauto | discriminate]. Qed.

Lemma ite_Ok (b : bool) (x y : A) :
  EnergyOptimizer.ite (Ok b) (Ok x) (Ok y) = Ok (if b then x else y).
Proof. by destruct b. Qed.

End ResultLemmas.

Lemma py_and_Ok (a b : bool) : py_and (Ok a) (Ok b) = Ok (a && b).
Proof. by destruct a. Qed.

Lemma py_or_Ok (a b : bool) : py_or (Ok a) (Ok b) = Ok (a || b).
Proof. by destruct a. Qed.

Lemma py_max3 (a b c : Z) : py_max [a; b; c] = Z.max (Z.max a b) c.
Proof. reflexivity. Qed.

Lemma py_index_max3 (a b c : Z) :
  py_index (py_max [a; b; c]) [a; b; c] = Ok (argmax3 a b c).
Proof.
  rewrite py_max3. unfold argmax3. cbn [py_index].
  destruct (a =? _)%Z eqn:Ha; [done|].
  destruct (b =? _)%Z eqn:Hb; [done|].
  destruct (c =? _)%Z eqn:Hc; [done|].
  lia.
Qed.

Lemma typed_inv (sd : gmap string value) (r : readings) :
  typed sd = Some r ->
  get sd "solar_irradiance" (VNum 0) = VNum (solar_irradiance r) /\
  get sd "temperature" (VNum 20) = VNum (temperature r) /\
  get sd "battery_level" (VNum 50) = VNum (battery_level r) /\
  get sd "power_demand" (VNum 100) = VNum (power_demand r) /\
  get sd "wind_speed" (VNum 0) = VNum (wind_speed r) /\
  get sd "time_of_day" (VNum 12) = VNum (time_of_day r) /\
  exists s, get sd "weather_condition" (VStr "") = VStr s /\ weather r = lower s.
Proof.
  unfold typed.
  destruct (get sd "solar_irradiance" _); [|discriminate].
  destruct (get sd "temperature" _); [|discriminate].
  destruct (get sd "battery_level" _); [|discriminate].
  destruct (get sd "power_demand" _); [|discriminate].
  destruct (get sd "wind_speed" _); [|discriminate].
  destruct (get sd "time_of_day" _); [|discriminate].
  destruct (get sd "weather_condition" _); [discriminate|].
  intros [= <-]. cbn. eauto 10.
Qed.

Lemma threshold_values :
  EnergyOptimizer.threshold EnergyOptimizer.solar_thresholds "good_irradiance" = 600%Q /\
  EnergyOptimizer.threshold EnergyOptimizer.solar_thresholds "moderate_irradiance" = 300%Q /\
  EnergyOptimizer.threshold EnergyOptimizer.solar_thresholds "min_irradiance" = 100%Q /\
  EnergyOptimizer.threshold EnergyOptimizer.thermal_thresholds "excellent_temp" = 30%Q /\
  EnergyOptimizer.threshold EnergyOptimizer.thermal_thresholds "good_temp" = 25%Q /\
  EnergyOptimizer.threshold EnergyOptimizer.thermal_thresholds "min_wind" = 5%Q /\
  EnergyOptimizer.threshold EnergyOptimizer.battery_thresholds "high_level" = 80%Q /\
  EnergyOptimizer.threshold EnergyOptimizer.battery_thresholds "good_level" = 50%Q /\
  EnergyOptimizer.threshold EnergyOptimizer.battery_thresholds "low_level" = 20%Q /\
  EnergyOptimizer.threshold EnergyOptimizer.battery_thresholds "critical_level" = 10%Q.
Proof. repeat split; vm_compute; reflexivity. Qed.

Ltac step_statement :=
  first
    [ rewrite bind_Ok; cbv beta
    | rewrite ite_Ok
    | match goal with
      | |- context [let '(_, _) := (if ?b then _ else _) in _] => destruct b
      end ].

Lemma predict_typed (sd : gmap string value) (r : readings) :
  typed sd = Some r ->
  EnergyOptimizer._predict_energy_source sd = Ok (decision_of r).
Proof.
  intros (Hi & Ht & Hb & Hp & Hw & Hh & s & Hs & Hl)%typed_inv.
  unfold EnergyOptimizer._predict_energy_source.
  destruct threshold_values as (-> & -> & -> & -> & -> & -> & -> & -> & -> & ->).
  rewrite Hi, Ht, Hb, Hp, Hw, Hh, Hs.
  cbn [py_gt py_lt py_ge py_le py_lower].
  rewrite !py_and_Ok, !py_or_Ok.
  unfold decision_of, rule_scores, daytime, night, cloudy, rainy, sunny.
  rewrite Hl.
  repeat step_statement; by rewrite py_index_max3.
Qed.

Lemma predict_Ok_typed (sd : gmap string value) d :
  EnergyOptimizer._predict_energy_source sd = Ok d -> exists r, typed sd = Some r.
Proof.
  unfold EnergyOptimizer._predict_energy_source, typed. intros H.
  repeat
    match type of H with
    | (_ ≫= _) = Ok _ =>
        let x := fresh "x" in
        let Hx := fresh "Hx" in
        apply bind_Ok_inv in H as (x & Hx & H)
    | (let '(_, _) := ?p in _) = Ok _ => destruct p
    end.
  destruct (get sd "solar_irradiance" _); [|discriminate].
  destruct (get sd "temperature" _); [|discriminate].
  destruct (get sd "battery_level" _); [|discriminate].
  destruct (get sd "power_demand" _); [|discriminate].
  destruct (get sd "wind_speed" _); [|discriminate].
  destruct (get sd "time_of_day" _); [|discriminate].
  destruct (get sd "weather_condition" _); [discriminate|].
  eauto.
Qed.

(** The decision engine returns exactly on the typed mappings, and there it
    returns [decision_of]. *)
Lemma predict_spec (sd : gmap string value) d :
  EnergyOptimizer._predict_energy_source sd = Ok d <->
  exists r, typed sd = Some r /\ d = decision_of r.
Proof.
  split.
  - intros H. destruct (predict_Ok_typed _ _ H) as [r Hr].
    exists r. split; [done|]. rewrite (predict_typed _ _ Hr) in H. congruence.
  - intros (r & Hr & ->). by apply predict_typed.
Qed.

Lemma predict_optimal_source_typed (raw : gmap string value) (r : readings) :
  typed (EnergyOptimizer._standardize_sensor_data raw) = Some r ->
  EnergyOptimizer.predict_optimal_source raw =
    match EnergyOptimizer.sources !! (decision_of r).1.1 with
    | Some optimal_source => Ok optimal_source
    | None => Raise IndexError
    end.
Proof.
  intros Hr. unfold EnergyOptimizer.predict_optimal_source.
  rewrite (predict_typed _ _ Hr). by destruct (decision_of r) as [[p c] s].
Qed.

(** ** Confidence *)

Lemma sum_positive3 (a b c : Z) :
  sum_positive [a; b; c] = Z.max 0 a + Z.max 0 b + Z.max 0 c.
Proof. reflexivity. Qed.

Lemma confidence_range (a b c : Z) :
  (0 <= EnergyOptimizer.confidence_of [a; b; c] <= 1)%Q.
Proof.
  unfold EnergyOptimizer.confidence_of. rewrite py_max3, sum_positive3.
  set (m := Z.max (Z.max a b) c). set (t := Z.max 0 a + Z.max 0 b + Z.max 0 c).
  destruct (0 <? t)%Z eqn:Ht.
  - apply Z.ltb_lt in Ht.
    assert (Hm0 : (inject_Z 0 <= inject_Z m)%Q) by (rewrite <- Zle_Qle; lia).
    assert (Hmt : (inject_Z m <= inject_Z t)%Q) by (rewrite <- Zle_Qle; lia).
    assert (Ht0 : (inject_Z 0 < inject_Z t)%Q) by (rewrite <- Zlt_Qlt; lia).
    change (inject_Z 0) with 0%Q in Hm0, Ht0.
    split.
    + apply Qle_shift_div_l; lra.
    + apply Qle_shift_div_r; lra.
  - split; discriminate.
Qed.

Lemma confidence_weak_default (a b c : Z) :
  a <= 0 -> b <= 0 -> c <= 0 ->
  EnergyOptimizer.confidence_of [a; b; c] = (1 # 2)%Q.
Proof.
  intros Ha Hb Hc. unfold EnergyOptimizer.confidence_of. rewrite sum_positive3.
  destruct (0 <? _)%Z eqn:Ht; [|done]. apply Z.ltb_lt in Ht. lia.
Qed.

(** C5.  On every telemetry mapping on which the decision engine returns a
    decision (the typed ones, on which it always does), the confidence is in
    the closed interval from 0 to 1, and it is exactly one half whenever the
    three scores are all at most 0. *)
Theorem confidence_in_unit_interval (sd : gmap string value) (r : readings) :
  typed sd = Some r ->
  exists p c s,
    EnergyOptimizer._predict_energy_source sd = Ok (p, c, s) /\
    (0 <= c <= 1)%Q /\
    (EnergyOptimizer.solar_score s <= 0 ->
     EnergyOptimizer.thermal_score s <= 0 ->
     EnergyOptimizer.battery_score s <= 0 ->
     c = (1 # 2)%Q).
Proof.
  intros Hr. rewrite (predict_typed _ _ Hr). unfold decision_of.
  destruct (rule_scores r) as [[a b] c]. eexists _, _, _. split; [done|].
  split; [apply confidence_range|]. cbn. apply confidence_weak_default.
Qed.

(** ** Choice of the source *)

(** C6.  The chosen source is the first maximum of the three scores in the
    order solar, thermal, battery: solar when its score is the maximum,
    otherwise thermal when its score is the maximum, and battery exactly when
    its score is strictly above both others. *)
Theorem chosen_source_first_argmax (sd : gmap string value) (r : readings) :
  typed sd = Some r ->
  exists p c s,
    EnergyOptimizer._predict_energy_source sd = Ok (p, c, s) /\
    let solar := EnergyOptimizer.solar_score s in
    let thermal := EnergyOptimizer.thermal_score s in
    let battery := EnergyOptimizer.battery_score s in
    let top := Z.max (Z.max solar thermal) battery in
    (solar = top -> EnergyOptimizer.sources !! p = Some "solar") /\
    (solar <> top -> thermal = top ->
     EnergyOptimizer.sources !! p = Some "thermal") /\
    (EnergyOptimizer.sources !! p = Some "battery" <->
     solar < battery /\ thermal < battery) /\
    (exists chosen, EnergyOptimizer.sources !! p = Some chosen /\
       forall raw, EnergyOptimizer._standardize_sensor_data raw = sd ->
         EnergyOptimizer.predict_optimal_source raw = Ok chosen).
Proof.
  intros Hr. rewrite (predict_typed _ _ Hr).
  pose proof (predict_optimal_source_typed) as Hopt.
  unfold decision_of in *.
  destruct (rule_scores r) as [[a b] c] eqn:Hs. eexists _, _, _. split; [done|].
  cbn -[Z.max]. unfold argmax3.
  destruct (a =? _)%Z eqn:Ha; [|destruct (b =? _)%Z eqn:Hb].
  - repeat split; try done; try lia.
    exists "solar". split; [done|]. intros raw <-.
    rewrite (Hopt _ _ Hr), Hs. cbn -[Z.max]. unfold argmax3. by rewrite Ha.
  - repeat split; try done; try lia.
    exists "thermal". split; [done|]. intros raw <-.
    rewrite (Hopt _ _ Hr), Hs. cbn -[Z.max]. unfold argmax3. by rewrite Ha, Hb.
  - repeat split; try done; try lia.
    exists "battery". split; [done|]. intros raw <-.
    rewrite (Hopt _ _ Hr), Hs. cbn -[Z.max]. unfold argmax3. by rewrite Ha, Hb.
Qed.

(** ** Cumulative or exclusive rules *)

Lemma Qlt_bool_iff (x y : Q) : Qlt_bool x y = true <-> (x < y)%Q.
Proof.
  unfold Qlt_bool. rewrite negb_true_iff.
  split.
  - intros H. apply Qnot_le_lt. intros Hle. apply Qle_bool_iff in Hle. congruence.
  - intros H. destruct (Qle_bool y x) eqn:E; [|done].
    apply Qle_bool_iff in E. exfalso. eapply Qlt_not_le; eauto.
Qed.

Lemma Qlt_bool_false_iff (x y : Q) : Qlt_bool x y = false <-> (y <= x)%Q.
Proof.
  unfold Qlt_bool. rewrite negb_false_iff. apply Qle_bool_iff.
Qed.

Lemma drained_at_noon_scores :
  typed drained_at_noon = Some drained_at_noon_readings /\
  EnergyOptimizer._predict_energy_source drained_at_noon =
    Ok (0%nat, (50 # 51)%Q,
        {| EnergyOptimizer.solar_score := 5;
           EnergyOptimizer.thermal_score := 0;
           EnergyOptimizer.battery_score := -3 |}).
Proof. split; vm_compute; reflexivity. Qed.

(** C1, as stated, fails: with the battery at 5 percent and an irradiance of
    900 the battery score is -3, not -8, and the solar score is 5, not 8. *)
Lemma cumulative_tiers_fails : ~ cumulative_tiers.
Proof.
  intros H. destruct drained_at_noon_scores as [Ht Hp].
  destruct (H _ _ _ _ _ Ht Hp) as [_ Hsolar].
  assert (Hbright : (600 < solar_irradiance drained_at_noon_readings)%Q)
    by reflexivity.
  specialize (Hsolar Hbright). vm_compute in Hsolar. discriminate.
Qed.

Ltac split_weather :=
  destruct (cloudy _); [|destruct (rainy _); [|destruct (sunny _)]].

(** C1, amended.  The separate statements of a source add up, but the tiers
    of one threshold ladder exclude each other, the first that matches being
    the only one counted: above the good irradiance (600) the solar score
    includes the +3 bonus alone, and with the battery level from the critical
    level (10) up to below the low level (20) the battery score includes the
    -3 penalty. *)
Theorem tiers_exclusive_statements_cumulative
    (sd : gmap string value) (r : readings) :
  typed sd = Some r ->
  exists p c s,
    EnergyOptimizer._predict_energy_source sd = Ok (p, c, s) /\
    ((600 < solar_irradiance r)%Q ->
     EnergyOptimizer.solar_score s = 3 + solar_other r) /\
    ((10 <= battery_level r)%Q -> (battery_level r < 20)%Q ->
     EnergyOptimizer.battery_score s = (-3) + battery_other r).
Proof.
  intros Hr. rewrite (predict_typed _ _ Hr). unfold decision_of.
  destruct (rule_scores r) as [[a b] c] eqn:Hs. eexists _, _, _. split; [done|].
  cbn [EnergyOptimizer.solar_score EnergyOptimizer.battery_score].
  unfold rule_scores, solar_other, battery_other in *.
  split.
  - intros Hi%Qlt_bool_iff. rewrite Hi in Hs.
    destruct (Qlt_bool 150 _), (night _); split_weather; injection Hs as <- _ _;
      destruct (daytime _); lia.
  - intros Hlo%Qlt_bool_false_iff Hhi.
    assert (H80 : Qlt_bool 80 (battery_level r) = false).
    { apply Qlt_bool_false_iff. lra. }
    assert (H50 : Qlt_bool 50 (battery_level r) = false).
    { apply Qlt_bool_false_iff. lra. }
    apply Qlt_bool_iff in Hhi. rewrite H80, H50, Hhi in Hs.
    destruct (Qlt_bool 150 _), (night _); split_weather; injection Hs as _ _ <-;
      lia.
Qed.

(** ** Safety checks of the supervisor *)

Ltac run_M :=
  unfold mbind, DualEnergySystem.M_mbind, DualEnergySystem.bind,
    DualEnergySystem.ret, DualEnergySystem.lift, DualEnergySystem.emit,
    DualEnergySystem.set_current_source, DualEnergySystem.get_current_source,
    DualEnergySystem.get_all_readings;
  cbn.

Section SupervisorProperties.

Variable config : gmap string Q.
Variable GPIO_output : Q -> bool -> result unit.
Variable readings_at : nat -> gmap string value.

(** C7.  On numeric telemetry each safety check returns, and it returns true
    exactly when: solar, the voltage and the current are at least their
    configured minima; thermal, the voltage is at least its minimum and the
    temperature lies between its minimum and its maximum; battery, the
    voltage is at least its minimum and the temperature at most its maximum.
    A reading that is absent counts as 0. *)
Theorem safety_checks_are_threshold_predicates (sd : gmap string value) :
  (forall v i : Q,
     get sd "solar_voltage" (VNum 0) = VNum v ->
     get sd "solar_current" (VNum 0) = VNum i ->
     exists safe,
       DualEnergySystem.check_solar_safety config sd = Ok safe /\
       (safe = true <->
        (DualEnergySystem.config_get config "solar_min_voltage" 12 <= v)%Q /\
        (DualEnergySystem.config_get config "solar_min_current" (1 # 2) <= i)%Q)) /\
  (forall v t : Q,
     get sd "thermal_voltage" (VNum 0) = VNum v ->
     get sd "thermal_temperature" (VNum 0) = VNum t ->
     exists safe,
       DualEnergySystem.check_thermal_safety config sd = Ok safe /\
       (safe = true <->
        (DualEnergySystem.config_get config "thermal_min_voltage" 5 <= v)%Q /\
        (DualEnergySystem.config_get config "thermal_min_temperature" 40 <= t)%Q /\
        (t <= DualEnergySystem.config_get config "thermal_max_temperature" 85)%Q)) /\
  (forall v t : Q,
     get sd "battery_voltage" (VNum 0) = VNum v ->
     get sd "battery_temperature" (VNum 0) = VNum t ->
     exists safe,
       DualEnergySystem.check_battery_safety config sd = Ok safe /\
       (safe = true <->
        (DualEnergySystem.config_get config "battery_min_voltage" (21 # 2) <= v)%Q /\
        (t <= DualEnergySystem.config_get config "battery_max_temperature" 45)%Q)).
Proof.
  repeat split.
  - intros v i Hv Hi. unfold DualEnergySystem.check_solar_safety.
    rewrite Hv, Hi. cbn [py_ge]. rewrite py_and_Ok. eexists. split; [done|].
    by rewrite andb_true_iff, !Qle_bool_iff.
  - intros v t Hv Ht. unfold DualEnergySystem.check_thermal_safety.
    rewrite Hv, Ht. cbn [py_ge py_le]. rewrite !py_and_Ok. eexists. split; [done|].
    by rewrite !andb_true_iff, !Qle_bool_iff.
  - intros v t Hv Ht. unfold DualEnergySystem.check_battery_safety.
    rewrite Hv, Ht. cbn [py_ge py_le]. rewrite py_and_Ok. eexists. split; [done|].
    by rewrite andb_true_iff, !Qle_bool_iff.
Qed.

(** C8.  Switching from a source to itself returns success at once: the relay
    states, the hardware flag and the pin table are unchanged and no GPIO
    write is made; only two log lines are added. *)
Theorem switch_to_same_source_is_noop (source : string)
    (pc : PowerController.t) :
  PowerController.switch_source GPIO_output source source pc =
    (true,
     PowerController.mk
       (PowerController.hardware_available pc)
       (PowerController.gpio_pins pc)
       (PowerController.relay_states pc)
       (PowerController.journal pc ++
        [PowerController.Log PowerController.INFO
           ("Switching power from " ++ source ++ " to " ++ source);
         PowerController.Log PowerController.DEBUG
           "Source already active, no switch needed"])).
Proof.
  unfold PowerController.switch_source. rewrite bool_decide_eq_true_2 by done.
  unfold PowerController.log. cbn. by rewrite <- app_assoc.
Qed.

Lemma safety_checks_unknown (new_source : string)
    (f g h : gmap string value -> result bool) :
  new_source <> "solar" -> new_source <> "thermal" -> new_source <> "battery" ->
  ({[ "solar" := f; "thermal" := g; "battery" := h ]}
     : gmap string (gmap string value -> result bool)) !! new_source = None.
Proof.
  intros H1 H2 H3.
  rewrite lookup_insert_ne by done. rewrite lookup_insert_ne by done.
  by rewrite lookup_singleton_ne.
Qed.

(** C9.  For a source name other than solar, thermal and battery the safety
    validation returns false and does not raise, whatever the telemetry; the
    supervisor then makes no call on the power controller and keeps its
    current source. *)
Theorem unknown_source_is_refused (new_source : string)
    (sd : gmap string value) (self : DualEnergySystem.t) :
  new_source <> "solar" -> new_source <> "thermal" -> new_source <> "battery" ->
  DualEnergySystem.is_safe_to_switch config new_source sd = Ok false /\
  DualEnergySystem.switch_energy_source config GPIO_output new_source sd self =
    (Ok tt,
     DualEnergySystem.mk
       (DualEnergySystem.running self)
       (DualEnergySystem.current_source self)
       (DualEnergySystem.power_controller self)
       (DualEnergySystem.sensor_reads self)
       (DualEnergySystem.journal self ++
        [DualEnergySystem.Info_switching
           (DualEnergySystem.current_source self) new_source;
         DualEnergySystem.Warning_safety_check_failed new_source])).
Proof.
  intros H1 H2 H3.
  assert (Hsafe : DualEnergySystem.is_safe_to_switch config new_source sd
                  = Ok false).
  { unfold DualEnergySystem.is_safe_to_switch, get.
    by rewrite safety_checks_unknown. }
  split; [done|].
  unfold DualEnergySystem.switch_energy_source. rewrite Hsafe.
  run_M. by rewrite <- app_assoc.
Qed.

(** ** Emergency switch of the power controller *)

(** The emergency switch returns normally on every path: it has no way to
    tell its caller that the target was not energized. *)
Lemma emergency_switch_returns (safe_source : string) (pc : PowerController.t) :
  (PowerController.emergency_switch GPIO_output safe_source pc).1 = Ok tt.
Proof.
  unfold PowerController.emergency_switch.
  by destruct (PowerController.deactivate_all _ _ _) as [[[]|e] pc'].
Qed.

(** Without hardware faults (simulation mode), an emergency switch to one of
    the three sources leaves that source energized and the two others not. *)
Lemma emergency_switch_simulation (target : string) (pc : PowerController.t) :
  PowerController.hardware_available pc = false ->
  target = "solar" \/ target = "thermal" \/ target = "battery" ->
  is_Some (PowerController.gpio_pins pc !! target) ->
  let pc' := (PowerController.emergency_switch GPIO_output target pc).2 in
  forall source,
    source = "solar" \/ source = "thermal" \/ source = "battery" ->
    PowerController.relay_states pc' !! source
    = Some (bool_decide (source = target)).
Proof.
  intros Hhw Htarget [pin Hpin] pc' source Hsource. subst pc'.
  unfold PowerController.emergency_switch, PowerController.deactivate_all,
    PowerController.activate_source, PowerController.invalid_source,
    PowerController.gpio_output, PowerController.log, PowerController.set_relay.
  cbn. rewrite !Hhw. cbn.
  assert (Hvalid : bool_decide (PowerController.gpio_pins pc !! target = None)
                   || bool_decide (target = "emergency") = false).
  { rewrite Hpin. rewrite bool_decide_eq_false_2 by done.
    rewrite bool_decide_eq_false_2; [done|].
    by destruct Htarget as [->|[->| ->]]. }
  assert (Htruthy : PowerController.truthy target = true)
    by by destruct Htarget as [->|[->| ->]].
  rewrite Htruthy. cbn. rewrite Hvalid. cbn. rewrite ?Hhw. cbn.
  destruct Htarget as [->|[->| ->]], Hsource as [->|[->| ->]];
    by simplify_map_eq.
Qed.

(** ** Emergency handling by the supervisor *)

Lemma find_safest_source_run (self : DualEnergySystem.t) :
  DualEnergySystem.find_safest_source config readings_at self =
    (safest config (readings_at (DualEnergySystem.sensor_reads self)),
     after self 1 []).
Proof.
  unfold DualEnergySystem.find_safest_source, safest, after. run_M.
  rewrite app_nil_r.
  destruct (DualEnergySystem.check_battery_safety _ _) as [[]|]; try done.
  destruct (DualEnergySystem.check_solar_safety _ _) as [[]|]; try done.
  by destruct (DualEnergySystem.check_thermal_safety _ _) as [[]|].
Qed.

(** The three outcomes of [handle_emergency]. *)
Lemma handle_emergency_run (m : DualEnergySystem.message)
    (self : DualEnergySystem.t) :
  DualEnergySystem.handle_emergency config GPIO_output readings_at m self =
    match safest config (readings_at (DualEnergySystem.sensor_reads self)) with
    | Raise e => (Raise e, after self 1 [DualEnergySystem.Critical_EMERGENCY m])
    | Ok (Some target) =>
        if PowerController.truthy target
           && negb (bool_decide (target = DualEnergySystem.current_source self))
        then
          (Ok tt,
           DualEnergySystem.mk
             (DualEnergySystem.running self)
             target
             (PowerController.emergency_switch GPIO_output target
                (DualEnergySystem.power_controller self)).2
             (S (DualEnergySystem.sensor_reads self))
             (DualEnergySystem.journal self ++
              [DualEnergySystem.Critical_EMERGENCY m;
               DualEnergySystem.Call_emergency_switch target;
               DualEnergySystem.Call_log_emergency m]))
        else
          (Ok tt, after self 1 [DualEnergySystem.Critical_EMERGENCY m;
                                DualEnergySystem.Call_log_emergency m])
    | Ok None =>
        (Ok tt, after self 1 [DualEnergySystem.Critical_EMERGENCY m;
                              DualEnergySystem.Call_log_emergency m])
    end.
Proof.
  unfold DualEnergySystem.handle_emergency.
  unfold mbind at 1, DualEnergySystem.M_mbind at 1, DualEnergySystem.bind at 1.
  unfold DualEnergySystem.emit at 1.
  unfold mbind at 1, DualEnergySystem.M_mbind at 1, DualEnergySystem.bind at 1.
  rewrite find_safest_source_run. cbn [DualEnergySystem.sensor_reads].
  destruct (safest config _) as [[target|]|e]; unfold after.
  - run_M. destruct (PowerController.truthy target && _) eqn:Hgo.
    + unfold DualEnergySystem.call_emergency_switch. cbn.
      pose proof (emergency_switch_returns target
                    (DualEnergySystem.power_controller self)) as Hret.
      destruct (PowerController.emergency_switch _ _ _) as [r pc']. cbn in *.
      subst r. run_M. by rewrite ?app_nil_r, <- ?app_assoc.
    + run_M. by rewrite ?app_nil_r, <- ?app_assoc.
  - run_M. by rewrite ?app_nil_r, <- ?app_assoc.
  - run_M. by rewrite ?app_nil_r, <- ?app_assoc.
Qed.





(** ** The health check of a cycle *)

Lemma handle_emergency_journal (m : DualEnergySystem.message)
    (self : DualEnergySystem.t) :
  exists rest : list DualEnergySystem.event,
    DualEnergySystem.journal
      (DualEnergySystem.handle_emergency config GPIO_output readings_at m self).2
    = DualEnergySystem.journal self
      ++ DualEnergySystem.Critical_EMERGENCY m :: rest.
Proof.
  rewrite handle_emergency_run.
  destruct (safest config _) as [[target|]|e]; [destruct (_ && _)| |]; cbn; eauto.
Qed.

Lemma check_condition_appends (sd : gmap string value)
    (entry : string * string * Q) :
  appends (DualEnergySystem.check_condition config GPIO_output readings_at sd entry).
Proof.
  intros self. destruct entry as [[param condition] threshold].
  unfold DualEnergySystem.check_condition.
  unfold mbind at 1, DualEnergySystem.M_mbind at 1, DualEnergySystem.bind at 1.
  unfold DualEnergySystem.lift at 1.
  destruct (py_and _ (py_le _ _)) as [[]|e].
  - destruct (handle_emergency_journal
                (DualEnergySystem.Critical_low param (get sd param (VNum 0)))
                self) as [rest ->]. eauto.
  - unfold mbind at 1, DualEnergySystem.M_mbind at 1, DualEnergySystem.bind at 1.
    unfold DualEnergySystem.lift at 1.
    destruct (py_and _ (py_ge _ _)) as [[]|e].
    + destruct (handle_emergency_journal
                  (DualEnergySystem.Critical_high param (get sd param (VNum 0)))
                  self) as [rest ->]. eauto.
    + exists []. by rewrite app_nil_r.
    + exists []. by rewrite app_nil_r.
  - exists []. by rewrite app_nil_r.
Qed.

Lemma for_each_appends {A : Type} (body : A -> DualEnergySystem.M unit)
    (l : list A) :
  (forall x, appends (body x)) -> appends (DualEnergySystem.for_each body l).
Proof.
  intros Hbody. induction l as [|x l IH]; intros self.
  - exists []. by rewrite app_nil_r.
  - cbn [DualEnergySystem.for_each].
    unfold mbind, DualEnergySystem.M_mbind, DualEnergySystem.bind.
    destruct (Hbody x self) as [new1 H1].
    destruct (body x self) as [[[]|e] self1]; cbn in *.
    + destruct (IH self1) as [new2 H2]. rewrite H2, H1, <- app_assoc. eauto.
    + eauto.
Qed.

(** When an entry of the list triggers, the loop over the list starting at
    that entry journals the emergency first. *)
Lemma for_each_first_triggers (sd : gmap string value)
    (entry : string * string * Q) (rest : list (string * string * Q))
    (m : DualEnergySystem.message) (self : DualEnergySystem.t) :
  DualEnergySystem.check_condition config GPIO_output readings_at sd entry
  = DualEnergySystem.handle_emergency config GPIO_output readings_at m ->
  exists new : list DualEnergySystem.event,
    DualEnergySystem.journal
      (DualEnergySystem.for_each
         (DualEnergySystem.check_condition config GPIO_output readings_at sd)
         (entry :: rest) self).2
    = DualEnergySystem.journal self
      ++ DualEnergySystem.Critical_EMERGENCY m :: new.
Proof.
  intros Hentry. cbn [DualEnergySystem.for_each].
  unfold mbind, DualEnergySystem.M_mbind, DualEnergySystem.bind.
  rewrite Hentry.
  destruct (handle_emergency_journal m self) as [new1 H1].
  destruct (DualEnergySystem.handle_emergency _ _ _ m self)
    as [[[]|e] self1]; cbn in *.
  - destruct (for_each_appends _ rest (check_condition_appends sd) self1)
      as [new2 H2].
    rewrite H2, H1, <- app_assoc. cbn. eauto.
  - eauto.
Qed.


Lemma check_low (sd : gmap string value) (param : string) (threshold v : Q) :
  get sd param (VNum 0) = VNum v ->
  DualEnergySystem.check_condition config GPIO_output readings_at sd
    (param, "low", threshold)
  = if Qle_bool v threshold
    then DualEnergySystem.handle_emergency config GPIO_output readings_at
           (DualEnergySystem.Critical_low param (VNum v))
    else DualEnergySystem.ret tt.
Proof.
  intros Hv. unfold DualEnergySystem.check_condition. rewrite Hv. cbn.
  by destruct (Qle_bool v threshold).
Qed.


(** C10.  In the health check a missing reading counts as 0 and the low
    bound is not strict: a battery voltage at or below the critical voltage
    raises the emergency; hence a telemetry mapping without battery voltage
    raises it for every positive critical voltage. *)
Theorem missing_battery_voltage_is_an_emergency
    (sd : gmap string value) (self : DualEnergySystem.t) :
  let critical :=
    DualEnergySystem.config_get config "battery_critical_voltage" 10 in
  let self' :=
    (DualEnergySystem.check_system_health config GPIO_output readings_at sd
       self).2 in
  (forall v : Q,
     get sd "battery_voltage" (VNum 0) = VNum v -> (v <= critical)%Q ->
     exists rest : list DualEnergySystem.event,
       DualEnergySystem.journal self'
       = DualEnergySystem.journal self
         ++ DualEnergySystem.Critical_EMERGENCY
              (DualEnergySystem.Critical_low "battery_voltage" (VNum v))
            :: rest) /\
  (sd !! "battery_voltage" = None -> (0 < critical)%Q ->
   exists rest : list DualEnergySystem.event,
     DualEnergySystem.journal self'
     = DualEnergySystem.journal self
       ++ DualEnergySystem.Critical_EMERGENCY
            (DualEnergySystem.Critical_low "battery_voltage" (VNum 0))
          :: rest).
Proof.
  intros critical self'.
  assert (Hle : forall v : Q,
    get sd "battery_voltage" (VNum 0) = VNum v -> (v <= critical)%Q ->
    exists rest : list DualEnergySystem.event,
      DualEnergySystem.journal self'
      = DualEnergySystem.journal self
        ++ DualEnergySystem.Critical_EMERGENCY
             (DualEnergySystem.Critical_low "battery_voltage" (VNum v))
           :: rest).
  { intros v Hv Hcrit. subst self'.
    unfold DualEnergySystem.check_system_health,
      DualEnergySystem.emergency_conditions.
    apply for_each_first_triggers. rewrite (check_low _ _ _ v Hv).
    apply Qle_bool_iff in Hcrit. fold critical. by rewrite Hcrit. }
  split; [done|].
  intros Hmissing Hpos. apply Hle.
  - unfold get. by rewrite Hmissing.
  - by apply Qlt_le_weak.
Qed.

(** ** The supervisory cycle *)





End SupervisorProperties.

(** ** Concrete runs *)



(** C3, at a failing input.  With the hardware present and the battery relay
    refusing to be driven high, the emergency switch to battery returns as on
    success, having logged its completion, and leaves every relay off. *)
Theorem emergency_switch_fails_silently :
  let out :=
    PowerController.emergency_switch GPIO_battery_relay_stuck "battery"
      (PowerController.init ∅ true) in
  out.1 = Ok tt /\
  PowerController.relay_states out.2
  = {[ "solar" := false; "thermal" := false; "battery" := false ]} /\
  PowerController.active_sources out.2 = [] /\
  PowerController.journal out.2
  = [PowerController.Log PowerController.CRITICAL "EMERGENCY SWITCH to battery";
     PowerController.GPIO_write 18 false;
     PowerController.GPIO_write 19 false;
     PowerController.GPIO_write 20 false;
     PowerController.Log PowerController.ERROR "Error activating battery";
     PowerController.Log PowerController.CRITICAL
       "Emergency switch to battery completed"].
Proof. repeat split; vm_compute; reflexivity. Qed.

(** The sibling override [force_source] reports the same fault to its caller. *)
Example force_source_reports_failure :
  (PowerController.force_source GPIO_battery_relay_stuck "battery"
     (PowerController.init ∅ true)).1 = false.
Proof. vm_compute. reflexivity. Qed.

(** ** Instances *)

Lemma tiers_exclusive_statements_cumulative_witness :
  typed low_battery_noon = Some low_battery_noon_readings /\
  exists p c s,
    EnergyOptimizer._predict_energy_source low_battery_noon = Ok (p, c, s) /\
    EnergyOptimizer.solar_score s = 3 + solar_other low_battery_noon_readings /\
    EnergyOptimizer.battery_score s
    = (-3) + battery_other low_battery_noon_readings.
Proof.
  split; [reflexivity|].
  destruct (tiers_exclusive_statements_cumulative low_battery_noon
              low_battery_noon_readings eq_refl)
    as (p & c & s & Hp & Hsolar & Hbattery).
  exists p, c, s. split; [exact Hp|]. split.
  - apply Hsolar. reflexivity.
  - apply Hbattery; [discriminate | reflexivity].
Defined.

Lemma confidence_in_unit_interval_witness :
  typed rainy_noon = Some rainy_noon_readings /\
  exists p c s,
    EnergyOptimizer._predict_energy_source rainy_noon = Ok (p, c, s) /\
    (0 <= c <= 1)%Q /\
    (EnergyOptimizer.solar_score s <= 0 ->
     EnergyOptimizer.thermal_score s <= 0 ->
     EnergyOptimizer.battery_score s <= 0 ->
     c = (1 # 2)%Q).
Proof.
  split; [reflexivity|].
  apply (confidence_in_unit_interval rainy_noon rainy_noon_readings).
  reflexivity.
Defined.

Lemma chosen_source_first_argmax_witness :
  typed cloudy_noon = Some cloudy_noon_readings /\
  exists p c s,
    EnergyOptimizer._predict_energy_source cloudy_noon = Ok (p, c, s) /\
    let solar := EnergyOptimizer.solar_score s in
    let thermal := EnergyOptimizer.thermal_score s in
    let battery := EnergyOptimizer.battery_score s in
    let top := Z.max (Z.max solar thermal) battery in
    (solar = top -> EnergyOptimizer.sources !! p = Some "solar") /\
    (solar <> top -> thermal = top ->
     EnergyOptimizer.sources !! p = Some "thermal") /\
    (EnergyOptimizer.sources !! p = Some "battery" <->
     solar < battery /\ thermal < battery) /\
    (exists chosen, EnergyOptimizer.sources !! p = Some chosen /\
       forall raw, EnergyOptimizer._standardize_sensor_data raw = cloudy_noon ->
         EnergyOptimizer.predict_optimal_source raw = Ok chosen).
Proof.
  split; [reflexivity|].
  apply (chosen_source_first_argmax cloudy_noon cloudy_noon_readings).
  reflexivity.
Defined.

Lemma safety_checks_are_threshold_predicates_witness :
  (exists safe,
     DualEnergySystem.check_solar_safety ∅ all_sound = Ok safe /\
     (safe = true <-> (12 <= 14)%Q /\ (1 # 2 <= 2)%Q)) /\
  (exists safe,
     DualEnergySystem.check_thermal_safety ∅ all_sound = Ok safe /\
     (safe = true <-> (5 <= 6)%Q /\ (40 <= 60)%Q /\ (60 <= 85)%Q)) /\
  (exists safe,
     DualEnergySystem.check_battery_safety ∅ all_sound = Ok safe /\
     (safe = true <-> (21 # 2 <= 12)%Q /\ (25 <= 45)%Q)).
Proof.
  destruct (safety_checks_are_threshold_predicates ∅ all_sound)
    as (Hsolar & Hthermal & Hbattery).
  split; [|split].
  - apply (Hsolar 14%Q 2%Q); reflexivity.
  - apply (Hthermal 6%Q 60%Q); reflexivity.
  - apply (Hbattery 12%Q 25%Q); reflexivity.
Defined.

Lemma unknown_source_is_refused_witness :
  DualEnergySystem.is_safe_to_switch ∅ "wind" all_sound = Ok false /\
  DualEnergySystem.switch_energy_source ∅ GPIO_sound "wind" all_sound
    (DualEnergySystem.init ∅ false)
  = (Ok tt,
     DualEnergySystem.mk false "battery" (PowerController.init ∅ false) 0
       [DualEnergySystem.Info_switching "battery" "wind";
        DualEnergySystem.Warning_safety_check_failed "wind"]).
Proof.
  apply (unknown_source_is_refused ∅ GPIO_sound "wind" all_sound
           (DualEnergySystem.init ∅ false)); discriminate.
Defined.

Lemma missing_battery_voltage_is_an_emergency_witness :
  (∅ : gmap string value) !! "battery_voltage" = None /\
  (0 < DualEnergySystem.config_get ∅ "battery_critical_voltage" 10)%Q /\
  exists rest : list DualEnergySystem.event,
    DualEnergySystem.journal
      (DualEnergySystem.check_system_health ∅ GPIO_sound (fun _ => all_sound) ∅
         (DualEnergySystem.init ∅ false)).2
    = DualEnergySystem.journal (DualEnergySystem.init ∅ false)
      ++ DualEnergySystem.Critical_EMERGENCY
           (DualEnergySystem.Critical_low "battery_voltage" (VNum 0))
         :: rest.
Proof.
  split; [reflexivity|]. split; [reflexivity|].
  apply (missing_battery_voltage_is_an_emergency ∅ GPIO_sound
           (fun _ => all_sound) ∅ (DualEnergySystem.init ∅ false));
    reflexivity.
Defined.


(** * Further properties of the code *)

(** ** Decision engine *)

Lemma rule_scores_closed (r : readings) :
  rule_scores r =
    (irradiance_points r + solar_other r,
     temperature_points r + thermal_other r,
     level_points r + battery_other r).
Proof.
  unfold rule_scores, irradiance_points, temperature_points, level_points,
    solar_other, thermal_other, battery_other.
  destruct (Qlt_bool 150 _), (night _); split_weather;
    (f_equal; [f_equal|]); repeat case_match; lia.
Qed.

Lemma standardized_lookup (raw : gmap string value) :
  let sd := EnergyOptimizer._standardize_sensor_data raw in
  sd !! "solar_irradiance"
  = Some (get raw "solar_irradiance"
            (py_mul50 (get raw "solar_voltage" (VNum 0)))) /\
  sd !! "temperature"
  = Some (get raw "temperature" (get raw "ambient_temperature" (VNum 20))) /\
  sd !! "humidity" = Some (get raw "humidity" (VNum 50)) /\
  sd !! "battery_level"
  = Some (get raw "battery_level" (get raw "battery_soc" (VNum 50))) /\
  sd !! "power_demand"
  = Some (get raw "power_demand" (get raw "load_demand" (VNum 100))) /\
  sd !! "wind_speed" = Some (get raw "wind_speed" (VNum 0)) /\
  sd !! "time_of_day"
  = Some (get raw "time_of_day" (get raw "hour_of_day" (VNum 12))) /\
  sd !! "weather_condition"
  = Some (get raw "weather_condition" (VStr "clear")) /\
  sd !! "season" = Some (get raw "season" (VStr "summer")).
Proof.
  unfold EnergyOptimizer._standardize_sensor_data. cbv zeta.
  repeat split; by simplify_map_eq.
Qed.

(** X1.  Standardizing telemetry that is already standardized changes
    nothing. *)
Theorem standardize_idempotent (raw : gmap string value) :
  EnergyOptimizer._standardize_sensor_data
    (EnergyOptimizer._standardize_sensor_data raw)
  = EnergyOptimizer._standardize_sensor_data raw.
Proof.
  destruct (standardized_lookup raw)
    as (Hi & Ht & Hh & Hb & Hp & Hw & Hd & Hc & Hs).
  cbv zeta in *.
  unfold EnergyOptimizer._standardize_sensor_data at 1. unfold get at 1 3 5 6 8 10 11 13 14.
  rewrite Hi, Ht, Hh, Hb, Hp, Hw, Hd, Hc, Hs. reflexivity.
Qed.

Ltac split_Qlt :=
  repeat match goal with
    | |- context [Qlt_bool ?a ?b] =>
        let E := fresh "E" in
        destruct (Qlt_bool a b) eqn:E;
        [apply Qlt_bool_iff in E | apply Qlt_bool_false_iff in E]
    end.

Lemma level_points_range (r : readings) :
  -3 <= level_points r <= 2 /\
  ((battery_level r < 20)%Q -> level_points r = -3).
Proof.
  unfold level_points. split; [|intros Hlow]; split_Qlt; solve [lia | lra].
Qed.

Lemma other_points_range (r : readings) :
  -4 <= solar_other r <= 2 /\ 0 <= thermal_other r <= 4 /\
  0 <= battery_other r <= 3.
Proof.
  unfold solar_other, thermal_other, battery_other.
  repeat split; repeat case_match; lia.
Qed.

Lemma ladder_points_range (r : readings) :
  0 <= irradiance_points r <= 3 /\ 0 <= temperature_points r <= 3.
Proof.
  unfold irradiance_points, temperature_points.
  repeat split; repeat case_match; lia.
Qed.

(** X2.  Every score stays in a fixed range: solar from -4 to 5, thermal from
    0 to 7, battery from -3 to 5.  The thermal score is never negative. *)
Theorem scores_in_fixed_ranges (sd : gmap string value) (r : readings) :
  typed sd = Some r ->
  exists p c s,
    EnergyOptimizer._predict_energy_source sd = Ok (p, c, s) /\
    -4 <= EnergyOptimizer.solar_score s <= 5 /\
    0 <= EnergyOptimizer.thermal_score s <= 7 /\
    -3 <= EnergyOptimizer.battery_score s <= 5.
Proof.
  intros Hr. rewrite (predict_typed _ _ Hr). unfold decision_of.
  rewrite rule_scores_closed. eexists _, _, _. split; [done|]. cbn.
  pose proof (level_points_range r) as [? _].
  pose proof (other_points_range r) as (? & ? & ?).
  pose proof (ladder_points_range r) as (? & ?). lia.
Qed.

(** X3.  With the battery level below the low threshold (20) the battery
    score is at most 0 and battery is not the chosen source. *)
Theorem low_battery_is_never_chosen (sd : gmap string value) (r : readings) :
  typed sd = Some r ->
  (battery_level r < 20)%Q ->
  exists p c s,
    EnergyOptimizer._predict_energy_source sd = Ok (p, c, s) /\
    EnergyOptimizer.battery_score s <= 0 /\
    EnergyOptimizer.sources !! p <> Some "battery".
Proof.
  intros Hr Hlow. rewrite (predict_typed _ _ Hr). unfold decision_of.
  rewrite rule_scores_closed. eexists _, _, _. split; [done|]. cbn -[Z.max].
  pose proof (level_points_range r) as [_ Hl]. specialize (Hl Hlow).
  pose proof (other_points_range r) as (? & ? & ?).
  pose proof (ladder_points_range r) as (? & ?).
  split; [lia|]. unfold argmax3.
  set (a := irradiance_points r + solar_other r) in *.
  set (b := temperature_points r + thermal_other r) in *.
  set (c := level_points r + battery_other r) in *.
  destruct (a =? Z.max (Z.max a b) c)%Z eqn:Ha; [done|].
  destruct (b =? Z.max (Z.max a b) c)%Z eqn:Hb; [done|].
  apply Z.eqb_neq in Ha, Hb. exfalso. lia.
Qed.

Lemma confidence_strict (a b c : Z) :
  (0 < EnergyOptimizer.confidence_of [a; b; c] < 1)%Q /\
  ((EnergyOptimizer.confidence_of [a; b; c] == 1 # 2)%Q <->
   a <= 0 /\ b <= 0 /\ c <= 0).
Proof.
  unfold EnergyOptimizer.confidence_of. rewrite py_max3, sum_positive3.
  set (m := Z.max (Z.max a b) c). set (t := Z.max 0 a + Z.max 0 b + Z.max 0 c).
  destruct (0 <? t)%Z eqn:Ht.
  - apply Z.ltb_lt in Ht.
    assert (Hm0 : (inject_Z 0 < inject_Z m)%Q) by (rewrite <- Zlt_Qlt; lia).
    assert (Hmt : (inject_Z m <= inject_Z t)%Q) by (rewrite <- Zle_Qle; lia).
    change (inject_Z 0) with 0%Q in Hm0.
    split; [split|].
    + apply Qlt_shift_div_l; lra.
    + apply Qlt_shift_div_r; lra.
    + split; [|lia]. intros Heq. exfalso.
      assert (Hq : (inject_Z m == (1 # 2) * (inject_Z t + (1 # 10)))%Q).
      { rewrite <- Heq. field. lra. }
      unfold Qeq, Qmult, Qplus, inject_Z in Hq. cbn in Hq. lia.
  - apply Z.ltb_ge in Ht. split; [split; reflexivity|].
    split; [lia|reflexivity].
Qed.

(** X4.  The confidence is strictly between 0 and 1, and it equals one half
    exactly when no score is positive. *)
Theorem confidence_never_certain (sd : gmap string value) (r : readings) :
  typed sd = Some r ->
  exists p c s,
    EnergyOptimizer._predict_energy_source sd = Ok (p, c, s) /\
    (0 < c < 1)%Q /\
    ((c == 1 # 2)%Q <->
     EnergyOptimizer.solar_score s <= 0 /\
     EnergyOptimizer.thermal_score s <= 0 /\
     EnergyOptimizer.battery_score s <= 0).
Proof.
  intros Hr. rewrite (predict_typed _ _ Hr). unfold decision_of.
  destruct (rule_scores r) as [[a b] c]. eexists _, _, _. split; [done|].
  apply confidence_strict.
Qed.

Lemma typed_items (raw : gmap string value) (r : readings) :
  let sd := EnergyOptimizer._standardize_sensor_data raw in
  typed sd = Some r ->
  EnergyOptimizer.item sd "solar_irradiance" = Ok (VNum (solar_irradiance r)) /\
  EnergyOptimizer.item sd "temperature" = Ok (VNum (temperature r)) /\
  EnergyOptimizer.item sd "battery_level" = Ok (VNum (battery_level r)) /\
  EnergyOptimizer.item sd "power_demand" = Ok (VNum (power_demand r)) /\
  EnergyOptimizer.item sd "wind_speed" = Ok (VNum (wind_speed r)) /\
  EnergyOptimizer.item sd "time_of_day" = Ok (VNum (time_of_day r)).
Proof.
  intros sd (Hi & Ht & Hb & Hp & Hw & Hh & _)%typed_inv.
  destruct (standardized_lookup raw)
    as (Li & Lt & _ & Lb & Lp & Lw & Lh & _ & _).
  fold sd in Li, Lt, Lb, Lp, Lw, Lh.
  unfold get in Hi, Ht, Hb, Hp, Hw, Hh. unfold EnergyOptimizer.item.
  rewrite Li in Hi |- *. rewrite Lt in Ht |- *. rewrite Lb in Hb |- *.
  rewrite Lp in Hp |- *. rewrite Lw in Hw |- *. rewrite Lh in Hh |- *.
  cbn in *. by rewrite Hi, Ht, Hb, Hp, Hw, Hh.
Qed.

Lemma append_if_Ok (b : bool) (reason : string) (reasons : list string) :
  EnergyOptimizer.append_if (Ok b) reason reasons
  = Ok (if b then reasons ++ [reason] else reasons).
Proof. reflexivity. Qed.

Lemma generate_reasoning_typed (raw : gmap string value) (r : readings)
    (prediction : nat) :
  let sd := EnergyOptimizer._standardize_sensor_data raw in
  typed sd = Some r ->
  exists reasons,
    EnergyOptimizer._generate_reasoning sd prediction = Ok reasons /\
    (1 <= length reasons <= 3)%nat.
Proof.
  intros sd Hr.
  destruct (typed_items raw r Hr) as (Hi & Ht & Hb & Hp & Hw & Hh).
  fold sd in Hi, Ht, Hb, Hp, Hw, Hh.
  unfold EnergyOptimizer._generate_reasoning.
  destruct prediction as [|[|prediction]];
    rewrite ?Hi, ?Ht, ?Hb, ?Hp, ?Hw, ?Hh;
    cbn -[Qlt_bool Qle_bool];
    repeat (match goal with
            | |- context [if ?b then _ else _] =>
                match type of b with bool => destruct b end
            end; cbn -[Qlt_bool Qle_bool]);
    eexists; (split; [reflexivity | cbn; lia]).
Qed.

Lemma analysis_table (s t b : string) :
  let analysis : gmap string string :=
    <["battery":=b]> (<["thermal":=t]> (<["solar":=s]> ∅)) in
  dom analysis = {[ "solar"; "thermal"; "battery" ]} /\
  analysis !! "solar" = Some s /\
  analysis !! "thermal" = Some t /\
  analysis !! "battery" = Some b.
Proof.
  cbv zeta. split; [set_solver|]. by simplify_map_eq.
Qed.

Lemma analyze_sensors_typed (raw : gmap string value) (r : readings) :
  let sd := EnergyOptimizer._standardize_sensor_data raw in
  typed sd = Some r ->
  exists analysis : gmap string string,
    EnergyOptimizer._analyze_sensors sd = Ok analysis /\
    dom analysis = {[ "solar"; "thermal"; "battery" ]} /\
    analysis !! "solar" = Some (ladder_label (irradiance_points r)) /\
    analysis !! "thermal"
    = Some (if (temperature_points r =? 3)%Z then "Excellent"
            else if (temperature_points r =? 2)%Z then "Good" else "Fair") /\
    (analysis !! "battery" = Some "Critical" <-> (battery_level r <= 20)%Q).
Proof.
  intros sd Hr.
  destruct (typed_items raw r Hr) as (Hi & Ht & Hb & _).
  fold sd in Hi, Ht, Hb.
  unfold EnergyOptimizer._analyze_sensors.
  rewrite Hi, bind_Ok. cbn [py_gt]. rewrite !ite_Ok, bind_Ok.
  rewrite Ht, bind_Ok. cbn [py_gt]. rewrite !ite_Ok, bind_Ok.
  rewrite Hb, bind_Ok. cbn [py_gt]. rewrite !ite_Ok.
  eexists. split; [reflexivity|].
  unfold irradiance_points, temperature_points, ladder_label.
  split_Qlt; cbn [Z.eqb Pos.eqb];
    match goal with
    | |- dom (<["battery":=?b]> (<["thermal":=?t]> (<["solar":=?s]> ∅))) = _
         /\ _ =>
        destruct (analysis_table s t b) as (Hd & Ls & Lt & Lb)
    end;
    (split; [exact Hd|]); (split; [exact Ls|]); (split; [exact Lt|]);
    rewrite Lb;
    (split; [intros H; first [discriminate H | lra]
            |intros H; first [reflexivity | lra]]).
Qed.

Lemma explain_decision_typed (raw : gmap string value) (r : readings) :
  let sd := EnergyOptimizer._standardize_sensor_data raw in
  typed sd = Some r ->
  exists name reasons analysis,
    EnergyOptimizer.predict_optimal_source raw = Ok name /\
    EnergyOptimizer._generate_reasoning sd (decision_of r).1.1 = Ok reasons /\
    EnergyOptimizer._analyze_sensors sd = Ok analysis /\
    EnergyOptimizer.explain_decision raw
    = Ok {| EnergyOptimizer.chosen_source := display_name name;
            EnergyOptimizer.confidence := (decision_of r).1.2;
            EnergyOptimizer.reasoning := reasons;
            EnergyOptimizer.explained_scores := (decision_of r).2;
            EnergyOptimizer.sensor_analysis := analysis |}.
Proof.
  intros sd Hr.
  destruct (generate_reasoning_typed raw r (decision_of r).1.1 Hr)
    as (reasons & Hreasons & _).
  destruct (analyze_sensors_typed raw r Hr) as (analysis & Hanalysis & _).
  fold sd in Hreasons, Hanalysis.
  rewrite (predict_optimal_source_typed raw r Hr).
  unfold EnergyOptimizer.explain_decision. fold sd.
  rewrite (predict_typed _ _ Hr).
  destruct (decision_of r) as [[p c] s] eqn:Hd. cbn [fst snd] in *.
  assert (Hp : p = 0%nat \/ p = 1%nat \/ p = 2%nat).
  { unfold decision_of in Hd. destruct (rule_scores r) as [[x y] z].
    injection Hd as <- _ _. unfold argmax3. repeat case_match; auto. }
  rewrite bind_Ok. cbv beta iota.
  destruct Hp as [->|[->| ->]]; cbn [lookup list_lookup];
    rewrite bind_Ok, Hreasons, bind_Ok, Hanalysis, bind_Ok;
    eexists _, reasons, analysis; done.
Qed.

(** X5.  Wherever the decision engine returns a source, the explanation
    returns too and reports the same decision: the chosen source under its
    display name, with the same confidence and the same scores. *)
Theorem explanation_reports_the_decision
    (raw : gmap string value) (r : readings) :
  typed (EnergyOptimizer._standardize_sensor_data raw) = Some r ->
  exists e name p c s,
    EnergyOptimizer.explain_decision raw = Ok e /\
    EnergyOptimizer.predict_optimal_source raw = Ok name /\
    EnergyOptimizer._predict_energy_source
      (EnergyOptimizer._standardize_sensor_data raw) = Ok (p, c, s) /\
    EnergyOptimizer.chosen_source e = display_name name /\
    EnergyOptimizer.confidence e = c /\
    EnergyOptimizer.explained_scores e = s.
Proof.
  intros Hr.
  destruct (explain_decision_typed raw r Hr)
    as (name & reasons & analysis & Hname & _ & _ & He).
  rewrite (predict_typed _ _ Hr).
  destruct (decision_of r) as [[p c] s]. rewrite He, Hname.
  by eexists _, _, _, _, _.
Qed.

(** X6.  The reasoning of an explanation is never empty and never has more
    than three entries. *)
Theorem reasoning_has_one_to_three_entries
    (raw : gmap string value) (r : readings) :
  typed (EnergyOptimizer._standardize_sensor_data raw) = Some r ->
  exists e,
    EnergyOptimizer.explain_decision raw = Ok e /\
    (1 <= length (EnergyOptimizer.reasoning e) <= 3)%nat.
Proof.
  intros Hr.
  destruct (explain_decision_typed raw r Hr)
    as (name & reasons & analysis & _ & Hreasons & _ & He).
  destruct (generate_reasoning_typed raw r (decision_of r).1.1 Hr)
    as (reasons' & Hreasons' & Hlen).
  rewrite He. eexists. split; [done|]. cbn. congruence.
Qed.

(** X7.  The sensor analysis of an explanation labels exactly the three
    sources; the solar and thermal labels follow the tier the scoring
    counted, and the battery is labelled critical exactly when its level is
    at most 20. *)
Theorem analysis_labels_follow_the_scoring_tiers
    (raw : gmap string value) (r : readings) :
  typed (EnergyOptimizer._standardize_sensor_data raw) = Some r ->
  exists e,
    EnergyOptimizer.explain_decision raw = Ok e /\
    let analysis := EnergyOptimizer.sensor_analysis e in
    dom analysis = {[ "solar"; "thermal"; "battery" ]} /\
    analysis !! "solar" = Some (ladder_label (irradiance_points r)) /\
    analysis !! "thermal"
    = Some (if (temperature_points r =? 3)%Z then "Excellent"
            else if (temperature_points r =? 2)%Z then "Good" else "Fair") /\
    (analysis !! "battery" = Some "Critical" <-> (battery_level r <= 20)%Q).
Proof.
  intros Hr.
  destruct (explain_decision_typed raw r Hr)
    as (name & reasons & analysis & _ & _ & Hanalysis & He).
  destruct (analyze_sensors_typed raw r Hr) as (analysis' & Hanalysis' & H).
  rewrite He. eexists. split; [done|]. cbn.
  assert (analysis' = analysis) as <- by congruence. exact H.
Qed.

(** ** Power controller *)

Section ControllerProperties.

Variable GPIO_output : Q -> bool -> result unit.

Lemma known_source_valid (source : string) (pc : PowerController.t) :
  wired pc -> known_source source ->
  PowerController.invalid_source source pc = false.
Proof.
  intros [Hpins _] Hknown. unfold PowerController.invalid_source.
  assert (Hin : source ∈ dom (PowerController.gpio_pins pc)).
  { rewrite Hpins. destruct Hknown as [->|[->| ->]]; set_solver. }
  apply elem_of_dom in Hin as [pin Hpin]. rewrite Hpin.
  rewrite bool_decide_eq_false_2 by done.
  rewrite bool_decide_eq_false_2; [done|].
  by destruct Hknown as [->|[->| ->]].
Qed.

Lemma valid_source_known (source : string) (pc : PowerController.t) :
  wired pc -> PowerController.invalid_source source pc = false ->
  known_source source.
Proof.
  intros [Hpins _]. unfold PowerController.invalid_source, known_source.
  intros [Hin Hne]%orb_false_elim.
  apply bool_decide_eq_false in Hin, Hne.
  assert (Hdom : source ∈ dom (PowerController.gpio_pins pc)).
  { apply elem_of_dom. by destruct (_ !! source). }
  rewrite Hpins in Hdom.
  rewrite !elem_of_union, !elem_of_singleton in Hdom. tauto.
Qed.

Lemma unknown_source_invalid (source : string) (pc : PowerController.t) :
  wired pc -> ~ known_source source ->
  PowerController.invalid_source source pc = true.
Proof.
  intros Hwired Hunknown.
  destruct (PowerController.invalid_source source pc) eqn:E; [done|].
  destruct Hunknown. by eapply valid_source_known.
Qed.

Lemma stays_wired_refl (pc : PowerController.t) : wired pc -> stays_wired pc pc.
Proof. by intros H. Qed.

Lemma stays_wired_trans (pc1 pc2 pc3 : PowerController.t) :
  stays_wired pc1 pc2 -> stays_wired pc2 pc3 -> stays_wired pc1 pc3.
Proof.
  intros (_ & H1 & H2) (H & H3 & H4). split; [exact H|]. split; congruence.
Qed.

Lemma stays_wired_log (pc : PowerController.t) lvl msg :
  wired pc -> stays_wired pc (PowerController.log lvl msg pc).
Proof. by intros H. Qed.

Lemma stays_wired_set_relay (pc : PowerController.t) (source : string)
    (state : bool) :
  wired pc -> known_source source ->
  stays_wired pc (PowerController.set_relay source state pc).
Proof.
  intros [Hpins Hrelays] Hknown. repeat split; cbn; [done|].
  rewrite dom_insert_L, Hrelays.
  destruct Hknown as [->|[->| ->]]; set_solver.
Qed.

Lemma stays_wired_gpio_output (pc : PowerController.t) (source : string)
    (high : bool) :
  wired pc ->
  stays_wired pc (PowerController.gpio_output GPIO_output source high pc).2.
Proof.
  intros H. unfold PowerController.gpio_output.
  destruct (PowerController.hardware_available pc) eqn:Hhw; [|done].
  destruct (_ !! source); [|done].
  destruct (GPIO_output _ _); [|done].
  destruct H as [Hpins Hrelays]. unfold stays_wired, wired. cbn. done.
Qed.

Lemma stays_wired_activate (pc : PowerController.t) (source : string) :
  wired pc ->
  stays_wired pc (PowerController.activate_source GPIO_output source pc).2.
Proof.
  intros H. unfold PowerController.activate_source.
  destruct (PowerController.invalid_source source pc) eqn:E; [done|].
  pose proof (valid_source_known _ _ H E) as Hknown.
  pose proof (stays_wired_gpio_output pc source true H) as Hg.
  destruct (PowerController.gpio_output _ _ _ _) as [[[]|e] pc1]; cbn in *.
  - eapply stays_wired_trans; [exact Hg|].
    destruct Hg as [Hw1 _].
    by apply (stays_wired_set_relay pc1 source true).
  - eapply stays_wired_trans; [exact Hg|]. by destruct Hg.
Qed.

Lemma stays_wired_deactivate (pc : PowerController.t) (source : string) :
  wired pc ->
  stays_wired pc (PowerController.deactivate_source GPIO_output source pc).2.
Proof.
  intros H. unfold PowerController.deactivate_source.
  destruct (PowerController.invalid_source source pc) eqn:E; [done|].
  pose proof (valid_source_known _ _ H E) as Hknown.
  pose proof (stays_wired_gpio_output pc source false H) as Hg.
  destruct (PowerController.gpio_output _ _ _ _) as [[[]|e] pc1]; cbn in *.
  - eapply stays_wired_trans; [exact Hg|].
    destruct Hg as [Hw1 _].
    by apply (stays_wired_set_relay pc1 source false).
  - eapply stays_wired_trans; [exact Hg|]. by destruct Hg.
Qed.

Lemma stays_wired_deactivate_all (sources : list string)
    (pc : PowerController.t) :
  Forall known_source sources -> wired pc ->
  stays_wired pc (PowerController.deactivate_all GPIO_output sources pc).2.
Proof.
  intros Hknown. revert pc.
  induction Hknown as [|source sources Hs _ IH]; intros pc H; [done|].
  cbn [PowerController.deactivate_all].
  pose proof (stays_wired_gpio_output pc source false H) as Hg.
  destruct (PowerController.gpio_output _ _ _ _) as [[[]|e] pc1]; cbn in *;
    [|done].
  eapply stays_wired_trans; [exact Hg|].
  destruct Hg as [Hw1 _].
  pose proof (stays_wired_set_relay pc1 source false Hw1 Hs) as Hset.
  eapply stays_wired_trans; [exact Hset|]. apply IH. by destruct Hset.
Qed.

Lemma three_sources_known :
  Forall known_source ["solar"; "thermal"; "battery"].
Proof. unfold known_source. repeat apply Forall_cons_2; auto. Qed.

Lemma stays_wired_emergency_switch (pc : PowerController.t)
    (safe_source : string) :
  wired pc ->
  stays_wired pc
    (PowerController.emergency_switch GPIO_output safe_source pc).2.
Proof.
  intros H. unfold PowerController.emergency_switch.
  set (pc0 := PowerController.log _ _ pc).
  assert (H0 : stays_wired pc pc0) by done.
  pose proof (stays_wired_deactivate_all _ pc0 three_sources_known (proj1 H0))
    as Hall.
  destruct (PowerController.deactivate_all _ _ _) as [[[]|e] pc1]; cbn in *.
  - eapply stays_wired_trans; [exact Hall|]. destruct Hall as [H1 _].
    destruct (PowerController.truthy safe_source).
    + pose proof (stays_wired_activate pc1 safe_source H1) as Ha.
      eapply stays_wired_trans; [exact Ha|]. by destruct Ha.
    + done.
  - eapply stays_wired_trans; [exact Hall|]. by destruct Hall.
Qed.

Lemma stays_wired_perform_switch (pc : PowerController.t)
    (from_source to_source : string) :
  wired pc ->
  stays_wired pc
    (PowerController._perform_switch GPIO_output from_source to_source pc).2.
Proof.
  intros H. unfold PowerController._perform_switch.
  set (pc1 := if bool_decide _ then _ else _).
  assert (H1 : stays_wired pc pc1).
  { subst pc1. case_bool_decide; [by apply stays_wired_deactivate|done]. }
  pose proof (stays_wired_activate pc1 to_source (proj1 H1)) as Ha.
  destruct (PowerController.activate_source _ _ _) as [success pc2]. cbn in *.
  by eapply stays_wired_trans.
Qed.

Lemma stays_wired_switch_source (pc : PowerController.t)
    (from_source to_source : string) :
  wired pc ->
  stays_wired pc
    (PowerController.switch_source GPIO_output from_source to_source pc).2.
Proof.
  intros H. unfold PowerController.switch_source.
  set (pc0 := PowerController.log _ _ pc).
  case_bool_decide; [done|].
  pose proof (stays_wired_perform_switch pc0 from_source to_source H) as Hp.
  destruct (PowerController._perform_switch _ _ _ _) as [[[]|e] pc1];
    cbn in *; try done.
  pose proof (stays_wired_emergency_switch
                (PowerController.log PowerController.ERROR
                   "Error during power switch" pc1) "battery" (proj1 Hp)) as He.
  destruct (PowerController.emergency_switch _ _ _) as [r pc2]. cbn in *.
  eapply stays_wired_trans; [exact Hp|]. exact He.
Qed.

Lemma stays_wired_force_source (pc : PowerController.t) (source : string) :
  wired pc ->
  stays_wired pc (PowerController.force_source GPIO_output source pc).2.
Proof.
  intros H. unfold PowerController.force_source. cbn [fold_left].
  set (pc0 := PowerController.log _ _ pc).
  pose proof (stays_wired_deactivate pc0 "solar" H) as H1.
  set (pc1 := (PowerController.deactivate_source _ "solar" pc0).2) in *.
  pose proof (stays_wired_deactivate pc1 "thermal" (proj1 H1)) as H2.
  set (pc2 := (PowerController.deactivate_source _ "thermal" pc1).2) in *.
  pose proof (stays_wired_deactivate pc2 "battery" (proj1 H2)) as H3.
  set (pc3 := (PowerController.deactivate_source _ "battery" pc2).2) in *.
  pose proof (stays_wired_activate pc3 source (proj1 H3)) as H4.
  assert (H03 : stays_wired pc pc3).
  { eapply stays_wired_trans; [exact H1|].
    eapply stays_wired_trans; [exact H2|]. exact H3. }
  destruct (PowerController.activate_source _ source pc3) as [[] pc4];
    cbn in *.
  - by eapply stays_wired_trans.
  - eapply stays_wired_trans; [exact H03|].
    eapply stays_wired_trans; [exact H4|].
    apply (stays_wired_activate
             (PowerController.log PowerController.ERROR _ pc4) "battery").
    by destruct H4.
Qed.

Lemma stays_wired_test_relay (source : string)
    (acc : gmap string bool * PowerController.t) :
  wired acc.2 ->
  stays_wired acc.2 (PowerController.test_relay GPIO_output source acc).2.
Proof.
  destruct acc as [results pc]. cbn [snd]. intros H.
  unfold PowerController.test_relay.
  set (pc0 := PowerController.log _ _ pc).
  pose proof (stays_wired_activate pc0 source H) as H1.
  destruct (PowerController.activate_source _ source pc0) as [a pc1].
  cbn [snd] in H1.
  set (pc2 := PowerController.log _ _ pc1).
  pose proof (stays_wired_deactivate pc2 source (proj1 H1)) as H2.
  destruct (PowerController.deactivate_source _ source pc2) as [d pc3].
  cbn [snd] in *. by eapply stays_wired_trans.
Qed.

Lemma stays_wired_test_relays (pc : PowerController.t) :
  wired pc ->
  stays_wired pc (PowerController.test_relays GPIO_output pc).2.
Proof.
  intros H. unfold PowerController.test_relays. cbn [fold_left].
  set (pc0 := PowerController.log _ _ pc).
  pose proof (stays_wired_test_relay "solar" (∅, pc0) H) as H1.
  set (acc1 := PowerController.test_relay _ "solar" _) in *.
  pose proof (stays_wired_test_relay "thermal" acc1 (proj1 H1)) as H2.
  set (acc2 := PowerController.test_relay _ "thermal" _) in *.
  pose proof (stays_wired_test_relay "battery" acc2 (proj1 H2)) as H3.
  set (acc3 := PowerController.test_relay _ "battery" _) in *.
  destruct acc3 as [results pc3]. cbn [snd] in *.
  pose proof (stays_wired_activate pc3 "battery" (proj1 H3)) as H4.
  cbn [snd].
  eapply stays_wired_trans; [exact H1|].
  eapply stays_wired_trans; [exact H2|].
  eapply stays_wired_trans; [exact H3|]. exact H4.
Qed.

Lemma init_wired (config : gmap string Q) (hardware : bool) :
  wired (PowerController.init config hardware).
Proof. split; cbn; set_solver. Qed.

(** X8.  Whatever the hardware does, no operation of the power controller
    changes the pin table or the hardware flag, and none adds or removes a
    relay: the relay table of a freshly built controller, and of every
    controller reached from it, has exactly the keys solar, thermal and
    battery. *)
Theorem controller_keeps_its_wiring (pc : PowerController.t) :
  wired pc ->
  (forall source,
     stays_wired pc (PowerController.activate_source GPIO_output source pc).2) /\
  (forall source,
     stays_wired pc
       (PowerController.deactivate_source GPIO_output source pc).2) /\
  (forall from_source to_source,
     stays_wired pc
       (PowerController.switch_source GPIO_output from_source to_source pc).2) /\
  (forall safe_source,
     stays_wired pc
       (PowerController.emergency_switch GPIO_output safe_source pc).2) /\
  (forall source,
     stays_wired pc (PowerController.force_source GPIO_output source pc).2) /\
  stays_wired pc (PowerController.test_relays GPIO_output pc).2.
Proof.
  intros H. repeat split; intros;
    auto using stays_wired_activate, stays_wired_deactivate,
      stays_wired_switch_source, stays_wired_emergency_switch,
      stays_wired_force_source, stays_wired_test_relays.
  all: first [ by apply stays_wired_activate | by apply stays_wired_deactivate
             | by apply stays_wired_switch_source
             | by apply stays_wired_emergency_switch
             | by apply stays_wired_force_source
             | by apply stays_wired_test_relays ].
Qed.

End ControllerProperties.

Section ControllerSimulation.

Variable GPIO_output : Q -> bool -> result unit.

Lemma relay_table (m : gmap string bool) (a b c : bool) :
  dom m = {[ "solar"; "thermal"; "battery" ]} ->
  m !! "solar" = Some a -> m !! "thermal" = Some b ->
  m !! "battery" = Some c ->
  m = {[ "solar" := a; "thermal" := b; "battery" := c ]}.
Proof.
  intros Hdom Ha Hb Hc. apply map_eq. intros k.
  destruct (decide (k = "solar")) as [->|H1]; [by simplify_map_eq|].
  destruct (decide (k = "thermal")) as [->|H2]; [by simplify_map_eq|].
  destruct (decide (k = "battery")) as [->|H3]; [by simplify_map_eq|].
  rewrite lookup_insert_ne by done. rewrite lookup_insert_ne by done.
  rewrite lookup_singleton_ne by done.
  apply not_elem_of_dom. rewrite Hdom.
  rewrite !elem_of_union, !elem_of_singleton. tauto.
Qed.

Lemma energize_all_off (source : string) :
  known_source source -> <[source := true]> all_off = only source.
Proof.
  intros Hk. unfold only, all_off. apply relay_table.
  - rewrite dom_insert_L. destruct Hk as [->|[->| ->]]; set_solver.
  - destruct Hk as [->|[->| ->]]; simplify_map_eq; reflexivity.
  - destruct Hk as [->|[->| ->]]; simplify_map_eq; reflexivity.
  - destruct Hk as [->|[->| ->]]; simplify_map_eq; reflexivity.
Qed.


Lemma wired_lookups (pc : PowerController.t) :
  wired pc ->
  exists a b c,
    PowerController.relay_states pc !! "solar" = Some a /\
    PowerController.relay_states pc !! "thermal" = Some b /\
    PowerController.relay_states pc !! "battery" = Some c.
Proof.
  intros [_ Hdom].
  assert (Hin : forall k, k ∈ ({[ "solar"; "thermal"; "battery" ]} : gset string) ->
                          is_Some (PowerController.relay_states pc !! k)).
  { intros k Hk. apply elem_of_dom. by rewrite Hdom. }
  destruct (Hin "solar") as [a Ha]; [set_solver|].
  destruct (Hin "thermal") as [b Hb]; [set_solver|].
  destruct (Hin "battery") as [c Hc]; [set_solver|].
  eauto 10.
Qed.

Lemma gpio_output_sim (source : string) (high : bool) (pc : PowerController.t) :
  PowerController.hardware_available pc = false ->
  PowerController.gpio_output GPIO_output source high pc = (Ok tt, pc).
Proof. intros H. unfold PowerController.gpio_output. by rewrite H. Qed.

Lemma activate_sim (source : string) (pc : PowerController.t) :
  PowerController.hardware_available pc = false ->
  PowerController.invalid_source source pc = false ->
  PowerController.activate_source GPIO_output source pc
  = (true,
     PowerController.log PowerController.DEBUG
       ("Activated " ++ source ++ " relay")%string
       (PowerController.set_relay source true pc)).
Proof.
  intros Hhw Hvalid. unfold PowerController.activate_source.
  by rewrite Hvalid, gpio_output_sim.
Qed.

Lemma deactivate_sim (source : string) (pc : PowerController.t) :
  PowerController.hardware_available pc = false ->
  PowerController.invalid_source source pc = false ->
  PowerController.deactivate_source GPIO_output source pc
  = (true,
     PowerController.log PowerController.DEBUG
       ("Deactivated " ++ source ++ " relay")%string
       (PowerController.set_relay source false pc)).
Proof.
  intros Hhw Hvalid. unfold PowerController.deactivate_source.
  by rewrite Hvalid, gpio_output_sim.
Qed.

Lemma activate_invalid (source : string) (pc : PowerController.t) :
  PowerController.invalid_source source pc = true ->
  PowerController.activate_source GPIO_output source pc
  = (false,
     PowerController.log PowerController.ERROR
       ("Invalid energy source: " ++ source)%string pc).
Proof.
  intros Hinvalid. unfold PowerController.activate_source. by rewrite Hinvalid.
Qed.

Lemma only_known (target : string) :
  known_source target ->
  only target !! target = Some true /\
  dom (only target) = {[ "solar"; "thermal"; "battery" ]}.
Proof.
  intros [->|[->| ->]]; split; try done; unfold only; set_solver.
Qed.

Lemma emergency_switch_only (target : string) (pc : PowerController.t) :
  PowerController.hardware_available pc = false ->
  wired pc -> known_source target ->
  PowerController.relay_states
    (PowerController.emergency_switch GPIO_output target pc).2
  = only target.
Proof.
  intros Hhw Hwired Hknown.
  destruct (stays_wired_emergency_switch GPIO_output pc target Hwired)
    as [[_ Hdom] _].
  assert (Hpin : is_Some (PowerController.gpio_pins pc !! target)).
  { apply elem_of_dom. destruct Hwired as [-> _].
    destruct Hknown as [->|[->| ->]]; set_solver. }
  pose proof (emergency_switch_simulation GPIO_output target pc Hhw Hknown Hpin)
    as Hlook. cbv zeta in Hlook.
  unfold only.
  destruct Hknown as [->|[->| ->]];
    (apply relay_table; [done| | |]; rewrite Hlook by auto; reflexivity).
Qed.

(** X9.  In simulation mode an emergency switch to one of the three sources
    ends with that source energized and the two others not, whatever the
    relays were before. *)
Theorem emergency_switch_energizes_only_the_target
    (target : string) (pc : PowerController.t) :
  PowerController.hardware_available pc = false ->
  wired pc -> known_source target ->
  PowerController.relay_states
    (PowerController.emergency_switch GPIO_output target pc).2
  = only target.
Proof. apply emergency_switch_only. Qed.

Lemma switch_source_sim (from_source to_source : string)
    (pc : PowerController.t) :
  PowerController.hardware_available pc = false ->
  wired pc -> known_source from_source -> known_source to_source ->
  from_source <> to_source ->
  let out := PowerController.switch_source GPIO_output from_source to_source pc in
  out.1 = true /\
  PowerController.hardware_available out.2 = false /\
  PowerController.relay_states out.2
  = <[to_source := true]>
      (<[from_source := false]> (PowerController.relay_states pc)).
Proof.
  intros Hhw Hwired Hfrom Hto Hne out. subst out.
  pose proof (known_source_valid _ pc Hwired Hfrom) as Hvf.
  pose proof (known_source_valid _ pc Hwired Hto) as Hvt.
  unfold PowerController.switch_source.
  rewrite bool_decide_eq_false_2 by done.
  unfold PowerController._perform_switch.
  rewrite bool_decide_eq_true_2.
  2:{ apply elem_of_dom. destruct Hwired as [_ Hd]. cbn. rewrite Hd.
      destruct Hfrom as [->|[->| ->]]; set_solver. }
  rewrite deactivate_sim by done. cbn [snd].
  rewrite activate_sim by done. done.
Qed.

(** X10.  In simulation mode a switch between two different sources succeeds,
    de-energizes the old source and energizes the new one; from a state in
    which the old source alone is energized it ends with the new source alone
    energized. *)
Theorem switch_source_moves_the_energized_relay
    (from_source to_source : string) (pc : PowerController.t) :
  PowerController.hardware_available pc = false ->
  wired pc -> known_source from_source -> known_source to_source ->
  from_source <> to_source ->
  let out := PowerController.switch_source GPIO_output from_source to_source pc in
  out.1 = true /\
  PowerController.relay_states out.2
  = <[to_source := true]>
      (<[from_source := false]> (PowerController.relay_states pc)) /\
  (PowerController.relay_states pc = only from_source ->
   PowerController.relay_states out.2 = only to_source).
Proof.
  intros Hhw Hwired Hfrom Hto Hne out.
  destruct (switch_source_sim from_source to_source pc Hhw Hwired Hfrom Hto Hne)
    as (Hok & _ & Hrelays).
  fold out in Hok, Hrelays. split; [done|]. split; [done|].
  intros Hsteady. rewrite Hrelays, Hsteady.
  destruct Hfrom as [->|[->| ->]], Hto as [->|[->| ->]]; try done;
    vm_compute; reflexivity.
Qed.


End ControllerSimulation.

Section ControllerOverrides.

Variable GPIO_output : Q -> bool -> result unit.

Lemma deactivate_all_three_sim (pc : PowerController.t) :
  PowerController.hardware_available pc = false ->
  wired pc ->
  let pc' :=
    fold_left
      (fun self src => (PowerController.deactivate_source GPIO_output src self).2)
      ["solar"; "thermal"; "battery"] pc in
  PowerController.hardware_available pc' = false /\
  wired pc' /\
  PowerController.relay_states pc' = all_off.
Proof.
  intros Hhw Hwired. cbn [fold_left].
  assert (Hs : PowerController.invalid_source "solar" pc = false)
    by (apply known_source_valid; unfold known_source; auto).
  assert (Ht : PowerController.invalid_source "thermal" pc = false)
    by (apply known_source_valid; unfold known_source; auto).
  assert (Hb : PowerController.invalid_source "battery" pc = false)
    by (apply known_source_valid; unfold known_source; auto).
  rewrite (deactivate_sim GPIO_output "solar") by done. cbn [snd].
  rewrite (deactivate_sim GPIO_output "thermal") by done. cbn [snd].
  rewrite (deactivate_sim GPIO_output "battery") by done. cbn [snd].
  split; [done|].
  assert (Hw' : wired
    (PowerController.log PowerController.DEBUG "Deactivated battery relay"
       (PowerController.set_relay "battery" false
          (PowerController.log PowerController.DEBUG "Deactivated thermal relay"
             (PowerController.set_relay "thermal" false
                (PowerController.log PowerController.DEBUG
                   "Deactivated solar relay"
                   (PowerController.set_relay "solar" false pc))))))).
  { destruct Hwired as [Hp Hr]. split; cbn; [done|].
    rewrite !dom_insert_L, Hr. set_solver. }
  split; [exact Hw'|].
  unfold all_off. apply relay_table; [apply Hw'| | |]; cbn; by simplify_map_eq.
Qed.

(** X12.  In simulation mode the override [force_source] always ends with
    exactly one source energized: the requested one, returning true, when it
    is one of the three sources, and battery, returning false, for any other
    name. *)
Theorem force_source_falls_back_to_battery
    (source : string) (pc : PowerController.t) :
  PowerController.hardware_available pc = false ->
  wired pc ->
  let out := PowerController.force_source GPIO_output source pc in
  (known_source source ->
   out.1 = true /\ PowerController.relay_states out.2 = only source) /\
  (~ known_source source ->
   out.1 = false /\ PowerController.relay_states out.2 = only "battery").
Proof.
  intros Hhw Hwired out. subst out. unfold PowerController.force_source.
  set (pc0 := PowerController.log _ _ pc).
  destruct (deactivate_all_three_sim pc0 Hhw Hwired) as (Hhw1 & Hw1 & Hoff).
  cbv zeta in Hhw1, Hw1, Hoff.
  set (pc1 := fold_left _ _ pc0) in *. clearbody pc1.
  split.
  - intros Hknown.
    rewrite activate_sim by (done || by apply known_source_valid).
    cbn. split; [done|]. rewrite Hoff.
    by apply energize_all_off.
  - intros Hunknown.
    rewrite activate_invalid by (by apply unknown_source_invalid).
    cbn [fst snd].
    rewrite activate_sim;
      [|done|apply known_source_valid; [done|unfold known_source; auto]].
    cbn. split; [done|]. rewrite Hoff.
    apply energize_all_off. unfold known_source. auto.
Qed.

Lemma test_relay_sim (source : string) (results : gmap string bool)
    (pc : PowerController.t) :
  PowerController.hardware_available pc = false ->
  wired pc -> known_source source ->
  let out := PowerController.test_relay GPIO_output source (results, pc) in
  out.1 = <[source := true]> results /\
  PowerController.hardware_available out.2 = false /\
  wired out.2 /\
  PowerController.relay_states out.2
  = <[source := false]> (PowerController.relay_states pc).
Proof.
  intros Hhw Hwired Hknown out. subst out.
  pose proof (known_source_valid _ pc Hwired Hknown) as Hv.
  unfold PowerController.test_relay.
  rewrite activate_sim by done.
  rewrite deactivate_sim by done. cbn.
  split; [done|]. split; [done|]. split.
  - destruct Hwired as [Hp Hr]. split; cbn; [done|].
    rewrite !dom_insert_L, Hr. destruct Hknown as [->|[->| ->]]; set_solver.
  - by rewrite insert_insert_eq.
Qed.

(** X13.  In simulation mode the relay test reports every relay as working
    and leaves battery alone energized, whichever source was energized when
    the test began. *)
Theorem test_relays_ends_on_battery (pc : PowerController.t) :
  PowerController.hardware_available pc = false ->
  wired pc ->
  let out := PowerController.test_relays GPIO_output pc in
  out.1 = {[ "solar" := true; "thermal" := true; "battery" := true ]} /\
  PowerController.relay_states out.2 = only "battery".
Proof.
  intros Hhw Hwired out. subst out. unfold PowerController.test_relays.
  cbn [fold_left].
  set (pc0 := PowerController.log _ _ pc).
  destruct (test_relay_sim "solar" ∅ pc0 Hhw Hwired) as (R1 & Hhw1 & Hw1 & S1);
    [unfold known_source; auto|].
  destruct (PowerController.test_relay _ "solar" _) as [r1 pc1].
  cbn [fst snd] in *. subst r1.
  destruct (test_relay_sim "thermal" (<["solar":=true]> ∅) pc1 Hhw1 Hw1)
    as (R2 & Hhw2 & Hw2 & S2); [unfold known_source; auto|].
  destruct (PowerController.test_relay _ "thermal" _) as [r2 pc2].
  cbn [fst snd] in *. subst r2.
  destruct (test_relay_sim "battery" (<["thermal":=true]> (<["solar":=true]> ∅))
              pc2 Hhw2 Hw2)
    as (R3 & Hhw3 & Hw3 & S3); [unfold known_source; auto|].
  destruct (PowerController.test_relay _ "battery" _) as [r3 pc3].
  cbn [fst snd] in *. subst r3.
  rewrite activate_sim;
    [|done|apply known_source_valid; [done|unfold known_source; auto]].
  cbn. split; [by apply map_eq; intros k; simplify_map_eq; repeat case_match|].
  destruct (stays_wired_set_relay pc3 "battery" true Hw3) as [[_ Hdom] _];
    [unfold known_source; auto|].
  unfold only. apply relay_table; [exact Hdom| | |]; cbn;
    rewrite S3, S2, S1; by simplify_map_eq.
Qed.

Lemma table_inj (a b c a' b' c' : bool) :
  ({[ "solar" := a; "thermal" := b; "battery" := c ]} : gmap string bool)
  = {[ "solar" := a'; "thermal" := b'; "battery" := c' ]} <->
  a = a' /\ b = b' /\ c = c'.
Proof.
  split; [|by intros (-> & -> & ->)].
  intros H.
  pose proof (f_equal (fun m : gmap string bool => m !! "solar") H) as H1.
  pose proof (f_equal (fun m : gmap string bool => m !! "thermal") H) as H2.
  pose proof (f_equal (fun m : gmap string bool => m !! "battery") H) as H3.
  cbn beta in H1, H2, H3. simplify_map_eq. done.
Qed.

Lemma active_of_table (a b c : bool) :
  (map_to_list
     (filter (fun item : string * bool => item.2 = true)
        ({[ "solar" := a; "thermal" := b; "battery" := c ]}
           : gmap string bool))).*1
  = match a, b, c with
    | false, false, false => []
    | true, false, false => ["solar"]
    | false, true, false => ["thermal"]
    | false, false, true => ["battery"]
    | true, true, false => ["solar"; "thermal"]
    | true, false, true => ["solar"; "battery"]
    | false, true, true => ["thermal"; "battery"]
    | true, true, true => ["solar"; "thermal"; "battery"]
    end
  \/ (1 < length
        (map_to_list
           (filter (fun item : string * bool => item.2 = true)
              ({[ "solar" := a; "thermal" := b; "battery" := c ]}
                 : gmap string bool))).*1
      /\ (a && b || a && c || b && c) = true)%nat.
Proof.
  destruct a, b, c;
    first [ left; vm_compute; reflexivity
          | right; split; [vm_compute; lia | reflexivity] ].
Qed.

(** X14.  On a controller with its three relays, [_get_active_source] returns
    nothing exactly when no relay is energized, and returns a source exactly
    when that source alone is energized. *)
Theorem get_active_source_reads_the_relay_table (pc : PowerController.t) :
  wired pc ->
  let active := (PowerController._get_active_source pc).1 in
  (active = None <-> PowerController.relay_states pc = all_off) /\
  (forall source, known_source source ->
     active = Some source <-> PowerController.relay_states pc = only source).
Proof.
  intros Hwired active. subst active.
  destruct (wired_lookups pc Hwired) as (a & b & c & Ha & Hb & Hc).
  pose proof (relay_table _ a b c (proj2 Hwired) Ha Hb Hc) as Hm.
  unfold PowerController._get_active_source, PowerController.active_sources.
  rewrite Hm. clear Hm Ha Hb Hc.
  assert (Honly : only "solar" = {[ "solar" := true; "thermal" := false;
                                     "battery" := false ]} /\
                  only "thermal" = {[ "solar" := false; "thermal" := true;
                                      "battery" := false ]} /\
                  only "battery" = {[ "solar" := false; "thermal" := false;
                                      "battery" := true ]})
    by (repeat split; vm_compute; reflexivity).
  destruct Honly as (Hs & Ht & Hb).
  unfold all_off.
  destruct (active_of_table a b c) as [Heq|[Hlen Htwo]].
  - rewrite Heq. split.
    + rewrite table_inj. destruct a, b, c; cbn; intuition congruence.
    + intros source [->|[->| ->]]; rewrite ?Hs, ?Ht, ?Hb, table_inj;
        destruct a, b, c; cbn; intuition congruence.
  - destruct (_.*1) as [|s1 [|s2 rest]]; cbn in Hlen; try lia. cbn.
    split.
    + rewrite table_inj. destruct a, b, c; cbn in *; intuition congruence.
    + intros source [->|[->| ->]]; rewrite ?Hs, ?Ht, ?Hb, table_inj;
        destruct a, b, c; cbn in *; intuition congruence.
Qed.

End ControllerOverrides.

(** ** Supervisor *)

Section CycleRelations.

Variable config : gmap string Q.
Variable GPIO_output : Q -> bool -> result unit.
Variable readings_at : nat -> gmap string value.

(** A relation between the supervisor before and after, kept by reading the
    sensors and journaling, by the normal switch and by the emergency
    handler, is kept by whole cycles. *)
Variable R : DualEnergySystem.t -> DualEnergySystem.t -> Prop.
Hypothesis R_refl : forall self, R self self.
Hypothesis R_trans : forall s1 s2 s3, R s1 s2 -> R s2 s3 -> R s1 s3.
Hypothesis R_frame :
  forall self reads new,
    (DualEnergySystem.sensor_reads self <= reads)%nat ->
    R self
      (DualEnergySystem.mk
         (DualEnergySystem.running self)
         (DualEnergySystem.current_source self)
         (DualEnergySystem.power_controller self) reads new).
Hypothesis R_switch :
  forall new_source sd self,
    R self
      (DualEnergySystem.switch_energy_source config GPIO_output new_source sd
         self).2.
Hypothesis R_handle :
  forall m self,
    R self
      (DualEnergySystem.handle_emergency config GPIO_output readings_at m
         self).2.

Lemma R_check_condition (sd : gmap string value)
    (entry : string * string * Q) (self : DualEnergySystem.t) :
  R self
    (DualEnergySystem.check_condition config GPIO_output readings_at sd entry
       self).2.
Proof.
  destruct entry as [[param condition] threshold].
  unfold DualEnergySystem.check_condition.
  unfold mbind at 1, DualEnergySystem.M_mbind at 1, DualEnergySystem.bind at 1.
  unfold DualEnergySystem.lift at 1.
  destruct (py_and _ (py_le _ _)) as [[]|e]; [apply R_handle| |apply R_refl].
  unfold mbind at 1, DualEnergySystem.M_mbind at 1, DualEnergySystem.bind at 1.
  unfold DualEnergySystem.lift at 1.
  destruct (py_and _ (py_ge _ _)) as [[]|e];
    [apply R_handle|apply R_refl|apply R_refl].
Qed.

Lemma R_for_each (sd : gmap string value)
    (entries : list (string * string * Q)) (self : DualEnergySystem.t) :
  R self
    (DualEnergySystem.for_each
       (DualEnergySystem.check_condition config GPIO_output readings_at sd)
       entries self).2.
Proof.
  revert self. induction entries as [|entry entries IH]; intros self.
  - apply R_refl.
  - cbn [DualEnergySystem.for_each].
    unfold mbind, DualEnergySystem.M_mbind, DualEnergySystem.bind.
    pose proof (R_check_condition sd entry self) as H1.
    destruct (DualEnergySystem.check_condition _ _ _ sd entry self)
      as [[[]|e] self1]; cbn in *; [|done].
    eapply R_trans; [exact H1|apply IH].
Qed.

Lemma R_decide_and_switch (self : DualEnergySystem.t) :
  R self
    (DualEnergySystem.decide_and_switch config GPIO_output readings_at self).2.
Proof.
  unfold DualEnergySystem.decide_and_switch.
  unfold mbind, DualEnergySystem.M_mbind, DualEnergySystem.bind.
  unfold DualEnergySystem.get_all_readings at 1.
  set (self1 := DualEnergySystem.mk _ _ _ (S _) _).
  assert (H1 : R self self1) by (apply R_frame; lia).
  unfold DualEnergySystem.lift at 1.
  destruct (EnergyOptimizer.predict_optimal_source _) as [opt|e]; [|done].
  unfold DualEnergySystem.get_current_source at 1.
  set (step := if negb _ then _ else _).
  assert (H2 : R self1 (step self1).2).
  { subst step. destruct (negb _); [apply R_switch|apply R_refl]. }
  destruct (step self1) as [[[]|e] self2]; cbn [snd] in H2;
    [|by eapply R_trans].
  unfold DualEnergySystem.get_current_source, DualEnergySystem.emit,
    DualEnergySystem.ret. cbn.
  eapply R_trans; [exact H1|]. eapply R_trans; [exact H2|].
  apply R_frame. lia.
Qed.

Lemma R_iteration (self : DualEnergySystem.t) :
  R self
    (DualEnergySystem.control_loop_iteration config GPIO_output readings_at
       self).2.
Proof.
  unfold DualEnergySystem.control_loop_iteration, DualEnergySystem.try_except.
  unfold mbind, DualEnergySystem.M_mbind, DualEnergySystem.bind.
  pose proof (R_decide_and_switch self) as H1.
  destruct (DualEnergySystem.decide_and_switch _ _ _ self)
    as [[sd|e] self1]; cbn [snd] in H1.
  - pose proof (R_for_each sd
                  (DualEnergySystem.emergency_conditions config) self1) as H2.
    unfold DualEnergySystem.check_system_health.
    destruct (DualEnergySystem.for_each _ _ self1) as [[[]|e] self2];
      cbn [snd] in H2 |- *.
    + by eapply R_trans.
    + eapply R_trans; [exact H1|]. eapply R_trans; [exact H2|].
      apply R_frame. cbn. lia.
  - eapply R_trans; [exact H1|]. apply R_frame. cbn. lia.
Qed.

Lemma iteration_returns (self : DualEnergySystem.t) :
  (DualEnergySystem.control_loop_iteration config GPIO_output readings_at
     self).1 = Ok tt.
Proof.
  unfold DualEnergySystem.control_loop_iteration, DualEnergySystem.try_except.
  by destruct (_ ≫= _) as [[[]|e] self1].
Qed.

Lemma control_loop_returns (cycles : nat) (self : DualEnergySystem.t) :
  (DualEnergySystem.control_loop config GPIO_output readings_at cycles
     self).1 = Ok tt.
Proof.
  revert self. induction cycles as [|cycles IH]; intros self; [done|].
  cbn [DualEnergySystem.control_loop].
  destruct (DualEnergySystem.running self); [|done].
  unfold mbind, DualEnergySystem.M_mbind, DualEnergySystem.bind.
  pose proof (iteration_returns self) as Hit.
  destruct (DualEnergySystem.control_loop_iteration _ _ _ self) as [r self1].
  cbn in Hit. subst r. apply IH.
Qed.

Lemma R_control_loop (cycles : nat) (self : DualEnergySystem.t) :
  R self
    (DualEnergySystem.control_loop config GPIO_output readings_at cycles
       self).2.
Proof.
  revert self. induction cycles as [|cycles IH]; intros self; [apply R_refl|].
  cbn [DualEnergySystem.control_loop].
  destruct (DualEnergySystem.running self); [|apply R_refl].
  unfold mbind, DualEnergySystem.M_mbind, DualEnergySystem.bind.
  pose proof (R_iteration self) as H1. pose proof (iteration_returns self) as Hit.
  destruct (DualEnergySystem.control_loop_iteration _ _ _ self) as [r self1].
  cbn in Hit, H1. subst r. eapply R_trans; [exact H1|apply IH].
Qed.

End CycleRelations.

Section SupervisorInvariants.

Variable config : gmap string Q.
Variable GPIO_output : Q -> bool -> result unit.
Variable readings_at : nat -> gmap string value.

Lemma switch_energy_source_run (new_source : string)
    (sd : gmap string value) (self : DualEnergySystem.t) :
  let current := DualEnergySystem.current_source self in
  DualEnergySystem.switch_energy_source config GPIO_output new_source sd self =
    match DualEnergySystem.is_safe_to_switch config new_source sd with
    | Raise e =>
        (Raise e,
         after self 0 [DualEnergySystem.Info_switching current new_source])
    | Ok false =>
        (Ok tt,
         after self 0
           [DualEnergySystem.Info_switching current new_source;
            DualEnergySystem.Warning_safety_check_failed new_source])
    | Ok true =>
        let out :=
          PowerController.switch_source GPIO_output current new_source
            (DualEnergySystem.power_controller self) in
        (Ok tt,
         DualEnergySystem.mk
           (DualEnergySystem.running self)
           (if out.1 then new_source else current)
           out.2
           (DualEnergySystem.sensor_reads self)
           (DualEnergySystem.journal self ++
            [DualEnergySystem.Info_switching current new_source;
             DualEnergySystem.Call_switch_source current new_source out.1;
             if out.1 then DualEnergySystem.Info_switched new_source
             else DualEnergySystem.Warning_failed_to_switch new_source
                    current]))
    end.
Proof.
  intros current. subst current.
  destruct (DualEnergySystem.is_safe_to_switch config new_source sd)
    as [[]|e] eqn:Hsafe;
    unfold DualEnergySystem.switch_energy_source; rewrite Hsafe; unfold after.
  - unfold mbind, DualEnergySystem.M_mbind, DualEnergySystem.bind,
      DualEnergySystem.lift, DualEnergySystem.get_current_source,
      DualEnergySystem.emit, DualEnergySystem.call_switch_source,
      DualEnergySystem.set_current_source. cbn.
    destruct (PowerController.switch_source _ _ _ _) as [[] pc'];
      cbn; by rewrite <- ?app_assoc.
  - run_M. by rewrite <- ?app_assoc.
  - run_M. done.
Qed.



(** *** The loop only stops on request *)

Lemma keeps_running_cycles (cycles : nat) (self : DualEnergySystem.t) :
  keeps_running self
    (DualEnergySystem.control_loop config GPIO_output readings_at cycles
       self).2.
Proof.
  apply R_control_loop; unfold keeps_running.
  - done.
  - intros s1 s2 s3 [? ?] [? ?]. split; [congruence|lia].
  - by cbn.
  - intros new_source sd s. rewrite switch_energy_source_run.
    cbv zeta. by repeat case_match.
  - intros m s. rewrite handle_emergency_run.
    repeat case_match; cbn; split; (done || lia).
Qed.

(** X15.  A cycle of the control loop never raises, whatever the sensors, the
    decision engine or the relays do, and it never clears the running flag:
    any number of cycles run to the end and leave the loop running. *)
Theorem control_loop_survives_every_cycle
    (cycles : nat) (self : DualEnergySystem.t) :
  let out :=
    DualEnergySystem.control_loop config GPIO_output readings_at cycles self in
  out.1 = Ok tt /\
  DualEnergySystem.running out.2 = DualEnergySystem.running self /\
  (DualEnergySystem.control_loop_iteration config GPIO_output readings_at
     self).1 = Ok tt.
Proof.
  intros out. split; [apply control_loop_returns|].
  split; [apply keeps_running_cycles|apply iteration_returns].
Qed.

(** *** The current source stays one of the three *)



End SupervisorInvariants.

Section SupervisorSimulation.

Variable config : gmap string Q.
Variable GPIO_output : Q -> bool -> result unit.
Variable readings_at : nat -> gmap string value.






(** X18.  On a reading on which the three safety checks return, the health
    status is critical exactly when the emergency handler would find no safe
    source, is excellent only when that handler would pick battery, and is
    otherwise good with some source to pick. *)
Theorem health_status_matches_safest_source
    (sd : gmap string value) (health : string) :
  DualEnergySystem.get_health_status config sd = Ok health ->
  (health = "excellent" \/ health = "good" \/ health = "critical") /\
  (health = "critical" <-> safest config sd = Ok None) /\
  (health = "excellent" -> safest config sd = Ok (Some "battery")) /\
  (health = "good" -> exists target, safest config sd = Ok (Some target)).
Proof.
  unfold DualEnergySystem.get_health_status, safest.
  destruct (DualEnergySystem.check_solar_safety _ _) as [[]|];
    destruct (DualEnergySystem.check_thermal_safety _ _) as [[]|];
    destruct (DualEnergySystem.check_battery_safety _ _) as [[]|];
    cbn; intros [= <-]; (split; [auto|]); (split; [split; done|]);
    split; intros; try done; eauto.
Qed.



End SupervisorSimulation.

(** ** Configuration loader *)

Lemma lookup_store_eq (k : string) (v : ConfigLoader.yaml)
    (items : list (string * ConfigLoader.yaml)) :
  ConfigLoader.lookup_item k (ConfigLoader.store_item k v items) = Some v.
Proof.
  induction items as [|[k' v'] items IH]; cbn.
  - by rewrite String.eqb_refl.
  - destruct (String.eqb k k') eqn:E; cbn.
    + by rewrite String.eqb_refl.
    + by rewrite E.
Qed.


Lemma set_path_cons (k k2 : string) (keys : list string)
    (v config : ConfigLoader.yaml) :
  ConfigLoader.set_path (k :: k2 :: keys) v config =
    match config with
    | ConfigLoader.YDict items =>
        child ←
          ConfigLoader.set_path (k2 :: keys) v
            match ConfigLoader.lookup_item k items with
            | Some child => child
            | None => ConfigLoader.YDict []
            end;
        Ok (ConfigLoader.YDict (ConfigLoader.store_item k child items))
    | _ => Raise TypeError
    end.
Proof. reflexivity. Qed.

Lemma set_path_get_path (keys : list string) (v default : ConfigLoader.yaml)
    (config config' : ConfigLoader.yaml) :
  ConfigLoader.set_path keys v config = Ok config' ->
  ConfigLoader.get_path keys config' default = v.
Proof.
  revert config config'.
  induction keys as [|k keys IH]; intros config config'; [done|].
  destruct keys as [|k2 keys].
  - cbn. destruct config; try done. intros [= <-]. cbn.
    by rewrite lookup_store_eq.
  - rewrite set_path_cons. destruct config; try done.
    intros (child & Hchild & [= <-])%bind_Ok_inv.
    change (ConfigLoader.get_path (k :: k2 :: keys)
              (ConfigLoader.YDict (ConfigLoader.store_item k child items))
              default)
      with (match ConfigLoader.lookup_item k
                    (ConfigLoader.store_item k child items) with
            | Some c => ConfigLoader.get_path (k2 :: keys) c default
            | None => default
            end).
    rewrite lookup_store_eq. by eapply IH.
Qed.


Lemma split_dot_nonempty (key : string) :
  exists k keys, ConfigLoader.split_dot key = k :: keys.
Proof.
  induction key as [|c key (k & keys & IH)]; cbn; [eauto|].
  destruct (Ascii.eqb c "."); [eauto|]. rewrite IH. eauto.
Qed.

(** X20.  A value stored with [set] is the value [get] returns for the same
    key, whatever the default and however many dots the key has; and on an
    empty configuration [set] always succeeds. *)
Theorem config_set_then_get (config config' : ConfigLoader.yaml)
    (key : string) (v default : ConfigLoader.yaml) :
  (ConfigLoader.set config key v = Ok config' ->
   ConfigLoader.get config' key default = v) /\
  (exists stored, ConfigLoader.set (ConfigLoader.YDict []) key v = Ok stored).
Proof.
  split; [apply set_path_get_path|].
  unfold ConfigLoader.set.
  destruct (split_dot_nonempty key) as (k & keys & ->).
  revert k. induction keys as [|k2 keys IH]; intros k; [cbn; eauto|].
  rewrite set_path_cons. cbn [ConfigLoader.lookup_item].
  destruct (IH k2) as [stored ->]. cbn. eauto.
Qed.


(** X22.  On the default configuration a key whose first segment is not one
    of the six top-level names resolves to the caller's default: the
    thresholds stored under [safety] are not found under flat names such as
    [battery_critical_voltage]. *)
Theorem default_config_has_no_flat_thresholds
    (key : string) (default : ConfigLoader.yaml) :
  hd "" (ConfigLoader.split_dot key)
  ∉ ["control_loop_interval"; "sensor_read_interval"; "simulation_mode";
     "safety"; "gpio"; "web"] ->
  ConfigLoader.get ConfigLoader.get_default_config key default = default.
Proof.
  unfold ConfigLoader.get.
  destruct (split_dot_nonempty key) as (k & keys & ->). cbn [hd].
  intros Hk. unfold ConfigLoader.get_default_config.
  cbn [ConfigLoader.get_path ConfigLoader.lookup_item].
  repeat (destruct (String.eqb k _) eqn:E;
          [apply String.eqb_eq in E; subst k; exfalso; apply Hk;
           repeat constructor | clear E]).
  done.
Qed.

(** ** Sensor manager *)

Lemma soc_linear (voltage : Q) :
  ((voltage - (21 # 2)) / ((27 # 2) - (21 # 2)) * 100
   == (voltage - (21 # 2)) * (100 # 3))%Q.
Proof. field. Qed.

(** X23.  The battery state of charge computed from the voltage is always
    between 0 and 100, is 0 at or below 10.5 volts and 100 at or above 13.5
    volts, and never decreases when the voltage increases. *)
Theorem battery_soc_is_clamped_and_monotone (v1 v2 : Q) :
  (0 <= SensorManager._calculate_battery_soc v1 <= 100)%Q /\
  ((v1 <= 21 # 2)%Q -> (SensorManager._calculate_battery_soc v1 == 0)%Q) /\
  ((27 # 2 <= v1)%Q -> (SensorManager._calculate_battery_soc v1 == 100)%Q) /\
  ((v1 <= v2)%Q ->
   (SensorManager._calculate_battery_soc v1
    <= SensorManager._calculate_battery_soc v2)%Q).
Proof.
  unfold SensorManager._calculate_battery_soc, SensorManager.py_max2,
    SensorManager.py_min2. cbv zeta.
  pose proof (soc_linear v1) as H1. pose proof (soc_linear v2) as H2.
  set (s1 := ((v1 - (21 # 2)) / ((27 # 2) - (21 # 2)) * 100)%Q) in *.
  set (s2 := ((v2 - (21 # 2)) / ((27 # 2) - (21 # 2)) * 100)%Q) in *.
  clearbody s1 s2.
  destruct (Qlt_bool s1 100) eqn:E1;
    [apply Qlt_bool_iff in E1 | apply Qlt_bool_false_iff in E1];
    (destruct (Qlt_bool s2 100) eqn:E2;
       [apply Qlt_bool_iff in E2 | apply Qlt_bool_false_iff in E2]);
    repeat split; intros; split_Qlt; lra.
Qed.

(** ** Instances of the further properties *)

Lemma standardized_low_battery_noon :
  typed (EnergyOptimizer._standardize_sensor_data low_battery_noon)
  = Some low_battery_noon_readings.
Proof. vm_compute. reflexivity. Qed.

Lemma scores_in_fixed_ranges_witness :
  typed low_battery_noon = Some low_battery_noon_readings /\
  exists p c s,
    EnergyOptimizer._predict_energy_source low_battery_noon = Ok (p, c, s) /\
    -4 <= EnergyOptimizer.solar_score s <= 5 /\
    0 <= EnergyOptimizer.thermal_score s <= 7 /\
    -3 <= EnergyOptimizer.battery_score s <= 5.
Proof.
  split; [reflexivity|].
  apply (scores_in_fixed_ranges low_battery_noon low_battery_noon_readings).
  reflexivity.
Defined.

Lemma low_battery_is_never_chosen_witness :
  typed low_battery_noon = Some low_battery_noon_readings /\
  (battery_level low_battery_noon_readings < 20)%Q /\
  exists p c s,
    EnergyOptimizer._predict_energy_source low_battery_noon = Ok (p, c, s) /\
    EnergyOptimizer.battery_score s <= 0 /\
    EnergyOptimizer.sources !! p <> Some "battery".
Proof.
  split; [reflexivity|]. split; [reflexivity|].
  apply (low_battery_is_never_chosen low_battery_noon
           low_battery_noon_readings); reflexivity.
Defined.

Lemma confidence_never_certain_witness :
  typed rainy_noon = Some rainy_noon_readings /\
  exists p c s,
    EnergyOptimizer._predict_energy_source rainy_noon = Ok (p, c, s) /\
    (0 < c < 1)%Q /\
    ((c == 1 # 2)%Q <->
     EnergyOptimizer.solar_score s <= 0 /\
     EnergyOptimizer.thermal_score s <= 0 /\
     EnergyOptimizer.battery_score s <= 0).
Proof.
  split; [reflexivity|].
  apply (confidence_never_certain rainy_noon rainy_noon_readings).
  reflexivity.
Defined.

Lemma explanation_reports_the_decision_witness :
  typed (EnergyOptimizer._standardize_sensor_data low_battery_noon)
  = Some low_battery_noon_readings /\
  exists e name p c s,
    EnergyOptimizer.explain_decision low_battery_noon = Ok e /\
    EnergyOptimizer.predict_optimal_source low_battery_noon = Ok name /\
    EnergyOptimizer._predict_energy_source
      (EnergyOptimizer._standardize_sensor_data low_battery_noon)
    = Ok (p, c, s) /\
    EnergyOptimizer.chosen_source e = display_name name /\
    EnergyOptimizer.confidence e = c /\
    EnergyOptimizer.explained_scores e = s.
Proof.
  split; [exact standardized_low_battery_noon|].
  apply (explanation_reports_the_decision low_battery_noon
           low_battery_noon_readings standardized_low_battery_noon).
Defined.

Lemma reasoning_has_one_to_three_entries_witness :
  typed (EnergyOptimizer._standardize_sensor_data low_battery_noon)
  = Some low_battery_noon_readings /\
  exists e,
    EnergyOptimizer.explain_decision low_battery_noon = Ok e /\
    (1 <= length (EnergyOptimizer.reasoning e) <= 3)%nat.
Proof.
  split; [exact standardized_low_battery_noon|].
  apply (reasoning_has_one_to_three_entries low_battery_noon
           low_battery_noon_readings standardized_low_battery_noon).
Defined.

Lemma analysis_labels_follow_the_scoring_tiers_witness :
  typed (EnergyOptimizer._standardize_sensor_data low_battery_noon)
  = Some low_battery_noon_readings /\
  exists e,
    EnergyOptimizer.explain_decision low_battery_noon = Ok e /\
    let analysis := EnergyOptimizer.sensor_analysis e in
    dom analysis = {[ "solar"; "thermal"; "battery" ]} /\
    analysis !! "solar"
    = Some (ladder_label (irradiance_points low_battery_noon_readings)) /\
    analysis !! "thermal"
    = Some (if (temperature_points low_battery_noon_readings =? 3)%Z
            then "Excellent"
            else if (temperature_points low_battery_noon_readings =? 2)%Z
            then "Good" else "Fair") /\
    (analysis !! "battery" = Some "Critical" <->
     (battery_level low_battery_noon_readings <= 20)%Q).
Proof.
  split; [exact standardized_low_battery_noon|].
  apply (analysis_labels_follow_the_scoring_tiers low_battery_noon
           low_battery_noon_readings standardized_low_battery_noon).
Defined.

Lemma simulated_controller :
  PowerController.hardware_available (PowerController.init ∅ false) = false /\
  wired (PowerController.init ∅ false) /\
  PowerController.relay_states (PowerController.init ∅ false) = only "battery".
Proof.
  split; [reflexivity|]. split; [apply init_wired|]. vm_compute. reflexivity.
Qed.

Lemma controller_keeps_its_wiring_witness :
  wired (PowerController.init ∅ true) /\
  stays_wired (PowerController.init ∅ true)
    (PowerController.emergency_switch GPIO_battery_relay_stuck "battery"
       (PowerController.init ∅ true)).2.
Proof.
  split; [apply init_wired|].
  destruct (controller_keeps_its_wiring GPIO_battery_relay_stuck
              (PowerController.init ∅ true) (init_wired ∅ true))
    as (_ & _ & _ & Hemergency & _).
  exact (Hemergency "battery").
Defined.

Lemma emergency_switch_energizes_only_the_target_witness :
  PowerController.hardware_available (PowerController.init ∅ false) = false /\
  known_source "solar" /\
  PowerController.relay_states
    (PowerController.emergency_switch GPIO_sound "solar"
       (PowerController.init ∅ false)).2
  = only "solar".
Proof.
  split; [reflexivity|].
  assert (Hknown : known_source "solar") by (left; reflexivity).
  split; [exact Hknown|].
  apply (emergency_switch_energizes_only_the_target GPIO_sound "solar"
           (PowerController.init ∅ false) eq_refl (init_wired ∅ false) Hknown).
Defined.

Lemma switch_source_moves_the_energized_relay_witness :
  "battery" <> "solar" /\
  PowerController.relay_states (PowerController.init ∅ false) = only "battery" /\
  let out :=
    PowerController.switch_source GPIO_sound "battery" "solar"
      (PowerController.init ∅ false) in
  out.1 = true /\ PowerController.relay_states out.2 = only "solar".
Proof.
  assert (Hne : "battery" <> "solar") by discriminate.
  destruct simulated_controller as (Hhw & Hwired & Hsteady).
  split; [exact Hne|]. split; [exact Hsteady|].
  destruct (switch_source_moves_the_energized_relay GPIO_sound
              "battery" "solar" (PowerController.init ∅ false) Hhw Hwired
              (or_intror (or_intror eq_refl)) (or_introl eq_refl) Hne)
    as (Hok & _ & Honly).
  split; [exact Hok|exact (Honly Hsteady)].
Defined.

Lemma wind_is_unknown : ~ known_source "wind".
Proof. intros [H|[H|H]]; discriminate. Qed.


Lemma force_source_falls_back_to_battery_witness :
  let out :=
    PowerController.force_source GPIO_sound "wind"
      (PowerController.init ∅ false) in
  out.1 = false /\ PowerController.relay_states out.2 = only "battery".
Proof.
  destruct simulated_controller as (Hhw & Hwired & _).
  destruct (force_source_falls_back_to_battery GPIO_sound "wind"
              (PowerController.init ∅ false) Hhw Hwired) as [_ Hunknown].
  exact (Hunknown wind_is_unknown).
Defined.

Lemma test_relays_ends_on_battery_witness :
  let out :=
    PowerController.test_relays GPIO_sound (PowerController.init ∅ false) in
  out.1 = {[ "solar" := true; "thermal" := true; "battery" := true ]} /\
  PowerController.relay_states out.2 = only "battery".
Proof.
  destruct simulated_controller as (Hhw & Hwired & _).
  exact (test_relays_ends_on_battery GPIO_sound
           (PowerController.init ∅ false) Hhw Hwired).
Defined.

Lemma get_active_source_reads_the_relay_table_witness :
  (PowerController._get_active_source (PowerController.init ∅ false)).1
  = Some "battery".
Proof.
  destruct simulated_controller as (_ & Hwired & Hsteady).
  destruct (get_active_source_reads_the_relay_table
              (PowerController.init ∅ false) Hwired) as [_ Hone].
  apply (Hone "battery"); [right; right; reflexivity|exact Hsteady].
Defined.



Lemma health_status_matches_safest_source_witness :
  DualEnergySystem.get_health_status ∅ all_sound = Ok "excellent" /\
  safest ∅ all_sound = Ok (Some "battery").
Proof.
  assert (H : DualEnergySystem.get_health_status ∅ all_sound = Ok "excellent")
    by reflexivity.
  split; [exact H|].
  destruct (health_status_matches_safest_source ∅ all_sound "excellent" H)
    as (_ & _ & Hexcellent & _).
  exact (Hexcellent eq_refl).
Defined.


Lemma config_set_then_get_witness :
  ConfigLoader.set ConfigLoader.get_default_config "safety.battery.max_temp"
    (ConfigLoader.YNum 45)
  = Ok
      (match
         ConfigLoader.set ConfigLoader.get_default_config
           "safety.battery.max_temp" (ConfigLoader.YNum 45)
       with
       | Ok stored => stored
       | Raise _ => ConfigLoader.YNone
       end) /\
  ConfigLoader.get
    (match
       ConfigLoader.set ConfigLoader.get_default_config
         "safety.battery.max_temp" (ConfigLoader.YNum 45)
     with
     | Ok stored => stored
     | Raise _ => ConfigLoader.YNone
     end) "safety.battery.max_temp" ConfigLoader.YNone
  = ConfigLoader.YNum 45.
Proof.
  assert (H : ConfigLoader.set ConfigLoader.get_default_config
                "safety.battery.max_temp" (ConfigLoader.YNum 45)
              = Ok
                  (match
                     ConfigLoader.set ConfigLoader.get_default_config
                       "safety.battery.max_temp" (ConfigLoader.YNum 45)
                   with
                   | Ok stored => stored
                   | Raise _ => ConfigLoader.YNone
                   end)) by reflexivity.
  split; [exact H|].
  apply (config_set_then_get ConfigLoader.get_default_config _
           "safety.battery.max_temp" (ConfigLoader.YNum 45) ConfigLoader.YNone).
  exact H.
Defined.


Lemma default_config_has_no_flat_thresholds_witness :
  ConfigLoader.get ConfigLoader.get_default_config "battery_critical_voltage"
    (ConfigLoader.YNum 10)
  = ConfigLoader.YNum 10.
Proof.
  apply (default_config_has_no_flat_thresholds "battery_critical_voltage"
           (ConfigLoader.YNum 10)).
  intros H. repeat (apply elem_of_cons in H as [H|H]; [discriminate H|]).
  by apply elem_of_nil in H.
Defined.

Lemma battery_soc_is_clamped_and_monotone_witness :
  (12 <= 13)%Q /\
  (0 <= SensorManager._calculate_battery_soc 12 <= 100)%Q /\
  (SensorManager._calculate_battery_soc 12
   <= SensorManager._calculate_battery_soc 13)%Q.
Proof.
  assert (H : (12 <= 13)%Q) by discriminate.
  split; [exact H|].
  destruct (battery_soc_is_clamped_and_monotone 12 13)
    as (Hrange & _ & _ & Hmono).
  split; [exact Hrange|exact (Hmono H)].
Defined.
